(** * Reconciliation of sync events against local message state

    A shallow embedding of [ts/messageModifiers/MessageReceipts.ts],
    [ts/messageModifiers/ViewOnceOpenSyncs.ts] and
    [ts/messageModifiers/MessageRequests.ts], and the properties that the
    specification states about them.

    Conventions of the embedding:
    - a JavaScript object used as a dictionary is a [gmap string _];
    - an attribute that may be [undefined] is an [option];
    - timestamps are integers ([Z]);
    - a Backbone model carries its [cid], the identity under which a
      collection finds and removes it;
    - an [async] function is a function that returns the trace of the
      side effects it issued together with its [Outcome]: [Ok] for a
      promise that resolves, [Threw] for one that rejects. *)

From Stdlib Require Import ZArith List Bool Lia.
From stdpp Require Import base decidable option list gmap strings.
Import ListNotations.
Local Open Scope Z_scope.

(** ** JavaScript helpers *)

(** Truthiness of a string: every string but the empty one. *)
Definition truthy_string (s : string) : bool :=
  match s with
  | EmptyString => false
  | String _ _ => true
  end.

(** Truthiness of an optional string attribute ([undefined] is falsy). *)
Definition truthy (o : option string) : bool :=
  match o with
  | Some s => truthy_string s
  | None => false
  end.

(** Truthiness of a number: every number but zero. *)
Definition truthy_number (n : Z) : bool := negb (n =? 0).

(** [a === b] on strings. *)
Definition str_eqb (a b : string) : bool := bool_decide (a = b).

(** [a === b] on attributes that may be [undefined]. *)
Definition opt_str_eqb (a b : option string) : bool := bool_decide (a = b).

(** The result of awaiting a promise. *)
Inductive Outcome (A : Type) : Type :=
| Ok (a : A)
| Threw (error : string).
Arguments Ok {A} a.
Arguments Threw {A} error.

Definition succeeded {A : Type} (o : Outcome A) : bool :=
  match o with
  | Ok _ => true
  | Threw _ => false
  end.

(** ** [ts/messages/MessageSendState] *)

Module SendStatus.
Inductive t : Set := Failed | Pending | Sent | Delivered | Read | Viewed.
End SendStatus.

Module SendActionType.
(** The actions that a receipt produces. *)
Inductive t : Set := GotDeliveryReceipt | GotReadReceipt | GotViewedReceipt.
End SendActionType.

Record SendState : Set := mkSendState {
  status : SendStatus.t;
  updatedAt : option Z
}.

Record SendAction : Set := mkSendAction {
  action_type : SendActionType.t;
  action_updatedAt : Z
}.

#[global] Instance SendStatus_eq_dec : EqDecision SendStatus.t.
Proof. solve_decision. Defined.

#[global] Instance SendState_eq_dec : EqDecision SendState.
Proof. solve_decision. Defined.

Abbreviation SendStateByConversationId := (gmap string SendState).

(** The type of [sendStateReducer]. *)
Definition Reducer : Type := SendState -> SendAction -> SendState.

Module SpecLattice.

(** The timestamp kept when a state that already carries [old] absorbs a
    receipt stamped [t]: the new one unless it is older. *)
Definition laterOf (old : option Z) (t : Z) : option Z :=
  match old with
  | Some u => if u <=? t then Some t else Some u
  | None => Some t
  end.

(** Modelled from the spec: [sendStateReducer] of
    [ts/messages/MessageSendState], which is not among the sources.
    Section 4.1: a delivery receipt upgrades [Pending] and [Sent] to
    [Delivered] stamped with the receipt's timestamp, and on a status that
    is already at least [Delivered] keeps the status and bumps [updatedAt]
    only if the receipt is not older; a read receipt upgrades to [Read]
    unless the status is already at least [Read]; a viewed receipt upgrades
    to [Viewed]; [Failed] is absorbing.  Section 8: a status escalation
    does not move [updatedAt] backwards.  Where the sections are silent (a
    read or viewed receipt that upgrades nothing) the state is returned as
    it is. *)
Definition sendStateReducer : Reducer := fun state action =>
  let t := action_updatedAt action in
  match status state with
  | SendStatus.Failed => state
  | oldStatus =>
    match action_type action with
    | SendActionType.GotDeliveryReceipt =>
      match oldStatus with
      | SendStatus.Pending | SendStatus.Sent =>
        mkSendState SendStatus.Delivered (Some t)
      | _ => mkSendState oldStatus (laterOf (updatedAt state) t)
      end
    | SendActionType.GotReadReceipt =>
      match oldStatus with
      | SendStatus.Read | SendStatus.Viewed => state
      | _ => mkSendState SendStatus.Read (laterOf (updatedAt state) t)
      end
    | SendActionType.GotViewedReceipt =>
      match oldStatus with
      | SendStatus.Viewed => state
      | _ => mkSendState SendStatus.Viewed (laterOf (updatedAt state) t)
      end
    end
  end.

End SpecLattice.

(** ** [ts/messageModifiers/MessageReceipts.ts]: data *)

Module MessageReceiptType.
Inductive t : Set := Delivery | Read | View.
End MessageReceiptType.

#[global] Instance MessageReceiptType_eq_dec : EqDecision MessageReceiptType.t.
Proof. solve_decision. Defined.

Record MessageReceiptAttributesType : Set := mkReceiptAttributes {
  messageSentAt : Z;
  receiptTimestamp : Z;
  sourceServiceId : string;
  sourceConversationId : string;
  sourceDevice : Z;
  type : MessageReceiptType.t;
  wasSentEncrypted : bool
}.

(** A Backbone model of a receipt: its attributes and the [cid] that
    Backbone gives every model it constructs. *)
Record MessageReceiptModel : Set := mkReceiptModel {
  cid : nat;
  attributes : MessageReceiptAttributesType
}.

#[global] Instance MessageReceiptAttributesType_eq_dec :
  EqDecision MessageReceiptAttributesType.
Proof. solve_decision. Defined.

#[global] Instance MessageReceiptModel_eq_dec : EqDecision MessageReceiptModel.
Proof. solve_decision. Defined.

(** [receipt.get(name)]. *)
Definition get {A : Type} (name : MessageReceiptAttributesType -> A)
    (receipt : MessageReceiptModel) : A :=
  name (attributes receipt).

(** ** [MessageReceipts.getNewSendStateByConversationId] *)

Definition sendActionTypeOf (t : MessageReceiptType.t) : SendActionType.t :=
  match t with
  | MessageReceiptType.Delivery => SendActionType.GotDeliveryReceipt
  | MessageReceiptType.Read => SendActionType.GotReadReceipt
  | MessageReceiptType.View => SendActionType.GotViewedReceipt
  end.

(** The state assumed for a recipient that the mapping does not hold. *)
Definition defaultSendState : SendState := mkSendState SendStatus.Sent None.

(** [getOwn(object, key)]. *)
Definition getOwn (object : SendStateByConversationId) (key : string)
    : option SendState :=
  object !! key.

Definition getNewSendStateByConversationId (sendStateReducer : Reducer)
    (oldSendStateByConversationId : SendStateByConversationId)
    (receipt : MessageReceiptModel) : SendStateByConversationId :=
  let receiptTimestamp := get receiptTimestamp receipt in
  let sourceConversationId := get sourceConversationId receipt in
  let type := get type receipt in
  let oldSendState :=
    default defaultSendState
      (getOwn oldSendStateByConversationId sourceConversationId) in
  let sendActionType := sendActionTypeOf type in
  let newSendState :=
    sendStateReducer oldSendState
      (mkSendAction sendActionType receiptTimestamp) in
  <[sourceConversationId := newSendState]> oldSendStateByConversationId.

(** ** Messages and conversations, as far as the code reads them *)

Module EditHistoryType.
(** One revision of an edited message.  The spread [{...edit, ...}]
    carries every other field of a revision over unchanged. *)
Record t : Type := mk {
  timestamp : Z;
  sendStateByConversationId : option SendStateByConversationId
}.
End EditHistoryType.

#[global] Instance EditHistoryType_eq_dec : EqDecision EditHistoryType.t.
Proof. solve_decision. Defined.

Module Message.
Record t : Type := mk {
  id : string;
  conversationId : string;
  timestamp : Z;
  sent_at : Z;
  source : option string;
  sourceServiceId : option string;
  editMessageTimestamp : option Z;
  sendStateByConversationId : option SendStateByConversationId;
  editHistory : option (list EditHistoryType.t);
  unidentifiedDeliveries : option (list string);
  storyDistributionListId : option string;
  deletedForEveryone : option bool
}.

(** [message.set('editHistory', value)]. *)
Definition set_editHistory (value : list EditHistoryType.t) (m : t) : t :=
  mk (id m) (conversationId m) (timestamp m) (sent_at m) (source m)
     (sourceServiceId m) (editMessageTimestamp m)
     (sendStateByConversationId m) (Some value)
     (unidentifiedDeliveries m) (storyDistributionListId m)
     (deletedForEveryone m).

(** [message.set('sendStateByConversationId', value)]. *)
Definition set_sendStateByConversationId
    (value : SendStateByConversationId) (m : t) : t :=
  mk (id m) (conversationId m) (timestamp m) (sent_at m) (source m)
     (sourceServiceId m) (editMessageTimestamp m)
     (Some value) (editHistory m)
     (unidentifiedDeliveries m) (storyDistributionListId m)
     (deletedForEveryone m).
End Message.

#[global] Instance Message_eq_dec : EqDecision Message.t.
Proof. solve_decision. Defined.

Abbreviation MessageAttributesType := Message.t.

(** A [MessageModel] is represented by the attributes it holds. *)
Abbreviation MessageModel := Message.t.

Module Conversation.
Record t : Set := mk {
  id : string;
  e164 : option string;
  serviceId : option string;
  groupId : option string;
  (** whether the member [debouncedUpdateLastMessage] is defined *)
  debouncedUpdateLastMessage : bool
}.
End Conversation.

Abbreviation ConversationModel := Conversation.t.

Record DeleteSentProtoRecipientOptionsType : Set := mkDeleteSentProto {
  proto_timestamp : Z;
  recipientServiceId : string;
  deviceId : Z
}.

(** ** The collaborators: storage, controllers, settings, batcher *)

Record World : Type := mkWorld {
  (** [window.storage.get('read-receipt-setting')], as a condition *)
  read_receipt_setting : bool;
  (** [window.Events.getStoryViewReceiptsEnabled()] *)
  getStoryViewReceiptsEnabled : bool;
  (** [window.textsecure.storage.user.getCheckedAci()] *)
  getCheckedAci : string;
  (** [window.SignalCI], as a condition *)
  SignalCI : bool;
  (** [window.ConversationController.get(id)] *)
  ConversationController_get : string -> option ConversationModel;
  (** [window.ConversationController.getConversationId(identifier)] *)
  ConversationController_getConversationId : string -> option string;
  (** [window.ConversationController.lookupOrCreate({e164, serviceId})] *)
  ConversationController_lookupOrCreate :
    option string -> option string -> option ConversationModel;
  (** [window.MessageController.register(id, message)] *)
  MessageController_register : string -> MessageAttributesType -> MessageModel;
  (** [window.Signal.Data.getMessagesBySentAt(sentAt)] *)
  getMessagesBySentAt : Z -> Outcome (list MessageAttributesType);
  (** [window.Signal.Data.getAllGroupsInvolvingServiceId(serviceId)] *)
  getAllGroupsInvolvingServiceId : string -> Outcome (list Conversation.t);
  (** how the promise of [deleteSentProtoBatcher.add(item)] settles *)
  deleteSentProtoBatcher_add :
    DeleteSentProtoRecipientOptionsType -> Outcome unit;
  (** how the promise of [deleteSentProtoBatcher.flushAndWait()] settles *)
  deleteSentProtoBatcher_flushAndWait : Outcome unit;
  (** how the promise of [message.markViewOnceMessageViewed(...)] settles *)
  markViewOnceMessageViewed : MessageModel -> Outcome unit
}.

Inductive Level : Set := Info | Warn | Error.

(** The side effects that the controllers issue on their collaborators. *)
Inductive Effect : Type :=
| Log (level : Level) (text : string)
| QueueUpdateMessage (attributes : MessageAttributesType)
| DebouncedUpdateLastMessage (conversationId : string)
| BatcherAdd (item : DeleteSentProtoRecipientOptionsType)
| BatcherFlushAndWait
| MarkViewOnceMessageViewed (messageId : string)
| ApplyMessageRequestResponse (conversationId : string) (response : Z).

(** [isEqual] of lodash on values of the embedding: structural equality. *)
Definition isEqual {A : Type} `{EqDecision A} (a b : A) : bool :=
  bool_decide (a = b).

(** [await Promise.all(promises)] on promises that are already started:
    it resolves when all of them do and rejects with the first rejection. *)
Fixpoint Promise_all (promises : list (Outcome unit)) : Outcome unit :=
  match promises with
  | [] => Ok tt
  | Ok _ :: rest => Promise_all rest
  | Threw e :: _ => Threw e
  end.

(** ** [ts/messageModifiers/MessageReceipts.ts]: operations *)

(** What one call of [updateMessageSendState] leaves behind: the message
    model after the call, the effects issued, and how the promise settled. *)
Record Update : Type := mkUpdate {
  model : MessageModel;
  effects : list Effect;
  settled : Outcome unit
}.

(** What one call of [onReceipt] leaves behind: the collection, the effects
    issued (in order), and the calls of [updateMessageSendState] it made. *)
Record Reconciled : Type := mkReconciled {
  collection : list MessageReceiptModel;
  trace : list Effect;
  updates : list Update
}.

(** Backbone's [Model]: every model has a [cid] of its own. *)
Class BackboneModel (Model : Type) : Type := cidOf : Model -> nat.

#[global] Instance MessageReceiptModel_model :
  BackboneModel MessageReceiptModel := cid.

(** [this.remove(models)] of a Backbone collection: the models are found by
    their [cid]. *)
Definition remove {Model : Type} `{BackboneModel Model}
    (models : list Model) (this : list Model) : list Model :=
  List.filter
    (fun item =>
       negb (existsb (fun m => Nat.eqb (cidOf m) (cidOf item)) models))
    this.

Section MessageReceipts.

(** Helpers of other modules of the repository that the file imports. *)
Variable isOutgoing : MessageAttributesType -> bool.
Variable isStory : MessageAttributesType -> bool.
Variable getSourceServiceId : MessageAttributesType -> option string.
Variable getMessageSentTimestamp : MessageAttributesType -> Z.
Variable sendStateReducer : Reducer.

Variable w : World.

Definition register (message : MessageAttributesType) : MessageModel :=
  MessageController_register w (Message.id message) message.

(** The predicate of the first [find] of [getTargetMessage]. *)
Definition isDirectTarget (sourceId : string)
    (item : MessageAttributesType) : bool :=
  (isOutgoing item || isStory item)
  && str_eqb sourceId (Message.conversationId item).

(** The predicate of the second [find] of [getTargetMessage]. *)
Definition isGroupTarget (ids : list string)
    (item : MessageAttributesType) : bool :=
  (isOutgoing item || isStory item)
  && existsb (str_eqb (Message.conversationId item)) ids.

(** What the two predicates decide: the message is outgoing or a story and
    lies in the conversation [sourceId] ... *)
Definition directTarget (sourceId : string) (item : MessageAttributesType)
    : Prop :=
  (isOutgoing item = true \/ isStory item = true)
  /\ Message.conversationId item = sourceId.

(** ... or in one of the [groups] or in the conversation [sourceId]. *)
Definition groupTarget (groups : list Conversation.t) (sourceId : string)
    (item : MessageAttributesType) : Prop :=
  (isOutgoing item = true \/ isStory item = true)
  /\ ((exists group, In group groups
                     /\ Conversation.id group = Message.conversationId item)
      \/ Message.conversationId item = sourceId).

Definition getTargetMessage (sourceId serviceId : string)
    (messages : list MessageAttributesType) : Outcome (option MessageModel) :=
  if Nat.eqb (length messages) 0 then Ok None
  else
    match List.find (isDirectTarget sourceId) messages with
    | Some message => Ok (Some (register message))
    | None =>
      match getAllGroupsInvolvingServiceId w serviceId with
      | Threw e => Threw e
      | Ok groups =>
        let ids := List.map Conversation.id groups ++ [sourceId] in
        match List.find (isGroupTarget ids) messages with
        | None => Ok None
        | Some target => Ok (Some (register target))
        end
      end
    end.

Definition wasDeliveredWithSealedSender (conversationId : string)
    (message : MessageModel) : bool :=
  existsb
    (fun identifier =>
       opt_str_eqb (ConversationController_getConversationId w identifier)
                   (Some conversationId))
    (default [] (Message.unidentifiedDeliveries message)).

Definition shouldDropReceipt (receipt : MessageReceiptModel)
    (message : MessageModel) : bool :=
  match get type receipt with
  | MessageReceiptType.Delivery => false
  | MessageReceiptType.Read => negb (read_receipt_setting w)
  | MessageReceiptType.View =>
    if isStory message then negb (getStoryViewReceiptsEnabled w)
    else negb (read_receipt_setting w)
  end.

(** [forMessage] returns the receipts found and leaves the collection
    without the receipts it removed. *)
Definition forMessage (this : list MessageReceiptModel)
    (message : MessageModel)
    : list MessageReceiptModel * list MessageReceiptModel :=
  if negb (isOutgoing message) && negb (isStory message) then ([], this)
  else
    let ourAci := getCheckedAci w in
    let sourceServiceId := getSourceServiceId message in
    if negb (opt_str_eqb (Some ourAci) sourceServiceId) then ([], this)
    else
      let sentAt := getMessageSentTimestamp message in
      let receipts :=
        List.filter (fun receipt => get messageSentAt receipt =? sentAt)
                    this in
      let this' :=
        if Nat.eqb (length receipts) 0 then this else remove receipts this in
      (List.filter (fun receipt => negb (shouldDropReceipt receipt message))
                   receipts,
       this').

(** The revision that the [map] over the edit history returns for [edit]. *)
Definition updateEdit (receipt : MessageReceiptModel)
    (edit : EditHistoryType.t) : EditHistoryType.t :=
  if negb (get messageSentAt receipt =? EditHistoryType.timestamp edit)
  then edit
  else
    let oldSendStateByConversationId :=
      default ∅ (EditHistoryType.sendStateByConversationId edit) in
    let newSendStateByConversationId :=
      getNewSendStateByConversationId sendStateReducer
        oldSendStateByConversationId receipt in
    EditHistoryType.mk (EditHistoryType.timestamp edit)
                       (Some newSendStateByConversationId).

(** [messageSentAt === message.get('timestamp') ||
     messageSentAt === editMessageTimestamp]. *)
Definition addressesTopLevel (receipt : MessageReceiptModel)
    (message : MessageModel) : bool :=
  (get messageSentAt receipt =? Message.timestamp message)
  || bool_decide (Some (get messageSentAt receipt)
                  = Message.editMessageTimestamp message).

(** The first half of [updateMessageSendState], up to the test of
    [hasChanges]: the message after the two merges, and [hasChanges]. *)
Definition mergeReceipt (receipt : MessageReceiptModel)
    (message : MessageModel) : MessageModel * bool :=
  let editHistory := default [] (Message.editHistory message) in
  let newEditHistory := List.map (updateEdit receipt) editHistory in
  let '(message, hasChanges) :=
    if negb (isEqual newEditHistory editHistory)
    then (Message.set_editHistory newEditHistory message, true)
    else (message, false) in
  if addressesTopLevel receipt message then
    let oldSendStateByConversationId :=
      default ∅ (Message.sendStateByConversationId message) in
    let newSendStateByConversationId :=
      getNewSendStateByConversationId sendStateReducer
        oldSendStateByConversationId receipt in
    if negb (isEqual oldSendStateByConversationId
                     newSendStateByConversationId)
    then (Message.set_sendStateByConversationId
            newSendStateByConversationId message, true)
    else (message, hasChanges)
  else (message, hasChanges).

(** The block guarded by [hasChanges]: persist, then notify. *)
Definition persistAndNotify (message : MessageModel) : list Effect :=
  QueueUpdateMessage message
  :: match ConversationController_get w (Message.conversationId message) with
     | Some conversation =>
       if Conversation.debouncedUpdateLastMessage conversation
       then [DebouncedUpdateLastMessage (Conversation.id conversation)]
       else []
     | None => []
     end.

(** The last block: the request to forget the sent proto. *)
Definition deleteSentProto (receipt : MessageReceiptModel)
    (message : MessageModel) : list Effect * Outcome unit :=
  let messageSentAt := get messageSentAt receipt in
  let sourceConversationId := get sourceConversationId receipt in
  let type := get type receipt in
  if (bool_decide (type = MessageReceiptType.Delivery)
      && wasDeliveredWithSealedSender sourceConversationId message
      && get wasSentEncrypted receipt)
     || bool_decide (type = MessageReceiptType.Read)
  then
    let recipient := ConversationController_get w sourceConversationId in
    let recipientServiceId := recipient ≫= Conversation.serviceId in
    let deviceId := get sourceDevice receipt in
    match recipientServiceId with
    | Some serviceId =>
      if truthy_string serviceId && truthy_number deviceId then
        let item := mkDeleteSentProto messageSentAt serviceId deviceId in
        (BatcherAdd item
           :: (if SignalCI w then [BatcherFlushAndWait] else []),
         Promise_all
           [deleteSentProtoBatcher_add w item;
            if SignalCI w then deleteSentProtoBatcher_flushAndWait w
            else Ok tt])
      else ([Log Warn "MessageReceipts.onReceipt: Missing serviceId or deviceId"],
            Ok tt)
    | None =>
      ([Log Warn "MessageReceipts.onReceipt: Missing serviceId or deviceId"],
       Ok tt)
    end
  else ([], Ok tt).

Definition updateMessageSendState (receipt : MessageReceiptModel)
    (message : MessageModel) : Update :=
  if shouldDropReceipt receipt message then
    mkUpdate message [Log Info "MessageReceipts: Dropping a receipt"] (Ok tt)
  else
    let '(message, hasChanges) := mergeReceipt receipt message in
    let changed := if hasChanges then persistAndNotify message else [] in
    let '(cleanup, result) := deleteSentProto receipt message in
    mkUpdate message (changed ++ cleanup) result.

(** The filter of [onReceipt] that looks for story copies. *)
Definition isStoryCopy (sourceConversationId : string)
    (item : MessageAttributesType) : bool :=
  truthy (Message.storyDistributionListId item)
  && bool_decide (is_Some (Message.sendStateByConversationId item))
  && negb (default false (Message.deletedForEveryone item))
  && match Message.sendStateByConversationId item with
     | Some sendStateByConversationId =>
       bool_decide (is_Some (sendStateByConversationId !! sourceConversationId))
     | None => false
     end.

Definition onReceipt (this : list MessageReceiptModel)
    (receipt : MessageReceiptModel) : Reconciled :=
  let messageSentAt := get messageSentAt receipt in
  let sourceConversationId := get sourceConversationId receipt in
  let sourceServiceId := get sourceServiceId receipt in
  let caught := [Log Error "MessageReceipts.onReceipt error:"] in
  match getMessagesBySentAt w messageSentAt with
  | Threw _ => mkReconciled this caught []
  | Ok messages =>
    match getTargetMessage sourceConversationId sourceServiceId messages with
    | Threw _ => mkReconciled this caught []
    | Ok (Some message) =>
      let update := updateMessageSendState receipt message in
      match settled update with
      | Ok _ => mkReconciled (remove [receipt] this) (effects update) [update]
      | Threw _ => mkReconciled this (effects update ++ caught) [update]
      end
    | Ok None =>
      let targetMessages :=
        List.filter (isStoryCopy sourceConversationId) messages in
      if Nat.eqb (length targetMessages) 0 then
        mkReconciled this [Log Info "MessageReceipts: No message for receipt"] []
      else
        let all :=
          List.map (fun msg => updateMessageSendState receipt (register msg))
                   targetMessages in
        let issued := List.concat (List.map effects all) in
        match Promise_all (List.map settled all) with
        | Ok _ => mkReconciled (remove [receipt] this) issued all
        | Threw _ => mkReconciled this (issued ++ caught) all
        end
    end
  end.

End MessageReceipts.

(** ** [ts/messageModifiers/ViewOnceOpenSyncs.ts] *)

Module ViewOnceOpenSync.
Record t : Set := mk {
  cid : nat;
  source : option string;
  sourceAci : string;
  timestamp : Z
}.
End ViewOnceOpenSync.

Abbreviation ViewOnceOpenSyncModel := ViewOnceOpenSync.t.

#[global] Instance ViewOnceOpenSyncModel_model :
  BackboneModel ViewOnceOpenSyncModel := ViewOnceOpenSync.cid.

Section ViewOnceOpenSyncs.

Variable w : World.

(** The predicate of the [find] of [onSync]. *)
Definition isSyncTarget (sync : ViewOnceOpenSyncModel)
    (item : MessageAttributesType) : bool :=
  let itemSourceAci := Message.sourceServiceId item in
  let syncSourceAci := ViewOnceOpenSync.sourceAci sync in
  let itemSource := Message.source item in
  let syncSource := ViewOnceOpenSync.source sync in
  (truthy itemSourceAci && truthy_string syncSourceAci
   && opt_str_eqb itemSourceAci (Some syncSourceAci))
  || (truthy itemSource && truthy syncSource
      && opt_str_eqb itemSource syncSource).

Definition onSync (this : list ViewOnceOpenSyncModel)
    (sync : ViewOnceOpenSyncModel)
    : list ViewOnceOpenSyncModel * list Effect :=
  let caught := [Log Error "ViewOnceOpenSyncs.onSync error:"] in
  match getMessagesBySentAt w (ViewOnceOpenSync.timestamp sync) with
  | Threw _ => (this, caught)
  | Ok messages =>
    let received := Log Info "Receive view once open sync:" in
    match List.find (isSyncTarget sync) messages with
    | None => (this, [received])
    | Some found =>
      let message :=
        MessageController_register w (Message.id found) found in
      let viewed := MarkViewOnceMessageViewed (Message.id message) in
      match markViewOnceMessageViewed w message with
      | Ok _ => (remove [sync] this, [received; viewed])
      | Threw _ => (this, [received; viewed] ++ caught)
      end
    end
  end.

End ViewOnceOpenSyncs.

(** ** [ts/messageModifiers/MessageRequests.ts] *)

Module MessageRequest.
Record t : Set := mk {
  cid : nat;
  threadE164 : option string;
  threadAci : option string;
  groupV2Id : option string;
  type : Z
}.
End MessageRequest.

Abbreviation MessageRequestModel := MessageRequest.t.

#[global] Instance MessageRequestModel_model :
  BackboneModel MessageRequestModel := MessageRequest.cid.

(** [this.findWhere({name: value})]: the first model whose attribute is
    [value]. *)
Definition findWhere (name : MessageRequestModel -> option string)
    (value : option string) (this : list MessageRequestModel)
    : option MessageRequestModel :=
  List.find (fun item => opt_str_eqb (name item) value) this.

(** The three lookups of [forConversation], each guarded by the truthiness
    of the conversation's own key. *)
Definition syncByE164 (this : list MessageRequestModel)
    (conversation : ConversationModel) : option MessageRequestModel :=
  if truthy (Conversation.e164 conversation)
  then findWhere MessageRequest.threadE164 (Conversation.e164 conversation) this
  else None.

Definition syncByAci (this : list MessageRequestModel)
    (conversation : ConversationModel) : option MessageRequestModel :=
  if truthy (Conversation.serviceId conversation)
  then findWhere MessageRequest.threadAci
         (Conversation.serviceId conversation) this
  else None.

Definition syncByGroupId (this : list MessageRequestModel)
    (conversation : ConversationModel) : option MessageRequestModel :=
  if truthy (Conversation.groupId conversation)
  then findWhere MessageRequest.groupV2Id
         (Conversation.groupId conversation) this
  else None.

(** [forConversation] returns the response found and leaves the collection
    without it. *)
Definition forConversation (this : list MessageRequestModel)
    (conversation : ConversationModel)
    : option MessageRequestModel * list MessageRequestModel :=
  match syncByE164 this conversation with
  | Some sync => (Some sync, remove [sync] this)
  | None =>
    match syncByAci this conversation with
    | Some sync => (Some sync, remove [sync] this)
    | None =>
      match syncByGroupId this conversation with
      | Some sync => (Some sync, remove [sync] this)
      | None => (None, this)
      end
    end
  end.



(** What [onResponse] does to find the conversation of a response. *)
Inductive Resolution : Type :=
| ByGroupId (groupV2Id : string) (conversation : ConversationModel)
| ByLookupOrCreate (e164 serviceId : option string)
                   (conversation : option ConversationModel)
| Unknown.

Definition resolved (r : Resolution) : option ConversationModel :=
  match r with
  | ByGroupId _ conversation => Some conversation
  | ByLookupOrCreate _ _ conversation => conversation
  | Unknown => None
  end.

Section MessageRequests.

Variable w : World.

(** The two assignments to [conversation] at the head of [onResponse]. *)
Definition resolveConversation (sync : MessageRequestModel) : Resolution :=
  let threadE164 := MessageRequest.threadE164 sync in
  let threadAci := MessageRequest.threadAci sync in
  let groupV2Id := MessageRequest.groupV2Id sync in
  let viaGroup :=
    match groupV2Id with
    | Some g =>
      if truthy_string g
      then option_map (ByGroupId g) (ConversationController_get w g)
      else None
    | None => None
    end in
  match viaGroup with
  | Some r => r
  | None =>
    if truthy threadE164 || truthy threadAci
    then ByLookupOrCreate threadE164 threadAci
           (ConversationController_lookupOrCreate w threadE164 threadAci)
    else Unknown
  end.

Definition onResponse (this : list MessageRequestModel)
    (sync : MessageRequestModel)
    : list MessageRequestModel * list Effect :=
  match resolved (resolveConversation sync) with
  | None =>
    (this,
     [Log Warn "Received message request response for unknown conversation"])
  | Some conversation =>
    (remove [sync] this,
     [ApplyMessageRequestResponse (Conversation.id conversation)
                                  (MessageRequest.type sync)])
  end.

End MessageRequests.

(** ** [ViewOnceOpenSyncs.forMessage] *)

Module ViewOnceOpenSyncs.

(** The predicate of the first [find] of [forMessage]. *)
Definition matchesBySourceAci (message : MessageModel)
    (item : ViewOnceOpenSyncModel) : bool :=
  opt_str_eqb (Some (ViewOnceOpenSync.sourceAci item))
              (Message.sourceServiceId message)
  && (ViewOnceOpenSync.timestamp item =? Message.sent_at message).

(** The predicate of the second [find] of [forMessage]. *)
Definition matchesBySource (message : MessageModel)
    (item : ViewOnceOpenSyncModel) : bool :=
  opt_str_eqb (ViewOnceOpenSync.source item) (Message.source message)
  && (ViewOnceOpenSync.timestamp item =? Message.sent_at message).

(** [forMessage] returns the sync found and leaves the collection without
    it. *)
Definition forMessage (this : list ViewOnceOpenSyncModel)
    (message : MessageModel)
    : option ViewOnceOpenSyncModel * list ViewOnceOpenSyncModel :=
  match List.find (matchesBySourceAci message) this with
  | Some syncBySourceAci => (Some syncBySourceAci, remove [syncBySourceAci] this)
  | None =>
    match List.find (matchesBySource message) this with
    | Some syncBySource => (Some syncBySource, remove [syncBySource] this)
    | None => (None, this)
    end
  end.

End ViewOnceOpenSyncs.

(** ** [deleteSentProtoBatcher.processBatch] *)




(** ** Fixtures for the examples *)

Module Fixtures.

Definition recipient : string := "conversation-bob".
Definition ourAci : string := "aci-us".

Definition receiptOf (cid : nat) (type : MessageReceiptType.t)
    (messageSentAt receiptTimestamp : Z) : MessageReceiptModel :=
  mkReceiptModel cid
    (mkReceiptAttributes messageSentAt receiptTimestamp "aci-bob" recipient 1
                         type true).

Definition delivery : MessageReceiptModel :=
  receiptOf 1 MessageReceiptType.Delivery 1000 1100.
Definition read : MessageReceiptModel :=
  receiptOf 2 MessageReceiptType.Read 1000 1200.
Definition view : MessageReceiptModel :=
  receiptOf 3 MessageReceiptType.View 1000 1300.
Definition other : MessageReceiptModel :=
  receiptOf 4 MessageReceiptType.Delivery 2000 2100.

Definition sentTo (who : string) : SendStateByConversationId :=
  {[ who := mkSendState SendStatus.Sent (Some 1000) ]}.

(** A message sent at 1000 in the conversation [conversationId]. *)
Definition messageIn (id conversationId : string)
    (sendStateByConversationId : option SendStateByConversationId)
    (editHistory : option (list EditHistoryType.t))
    (storyDistributionListId : option string) : MessageAttributesType :=
  Message.mk id conversationId 1000 1000 None (Some ourAci) None
             sendStateByConversationId editHistory None
             storyDistributionListId None.

Definition outgoing : MessageAttributesType :=
  messageIn "outgoing-1" recipient (Some (sentTo recipient)) None None.

Definition incoming : MessageAttributesType :=
  Message.mk "incoming-1" recipient 1000 1000 (Some "+15550001")
             (Some "aci-bob") None None None None None None.

Definition edited : MessageAttributesType :=
  Message.mk "outgoing-2" recipient 900 900 None (Some ourAci) (Some 1000)
             (Some (sentTo recipient))
             (Some [EditHistoryType.mk 1000 None;
                    EditHistoryType.mk 900 (Some (sentTo recipient))])
             None None None.

Definition inGroup : MessageAttributesType :=
  messageIn "outgoing-3" "group-1" (Some (sentTo recipient)) None None.

Definition storyCopy1 : MessageAttributesType :=
  messageIn "story-1" "conversation-us" (Some (sentTo recipient)) None
            (Some "list-1").
Definition storyCopy2 : MessageAttributesType :=
  messageIn "story-2" "conversation-us" (Some (sentTo recipient)) None
            (Some "list-2").
Definition storyElsewhere : MessageAttributesType :=
  messageIn "story-3" "conversation-us" (Some (sentTo "conversation-carol"))
            None (Some "list-3").

Definition opened : ViewOnceOpenSyncModel :=
  ViewOnceOpenSync.mk 1 (Some "+15550001") "aci-bob" 1000.

Definition responseByGroup : MessageRequestModel :=
  MessageRequest.mk 1 None None (Some "group-1") 1.
Definition responseByAci : MessageRequestModel :=
  MessageRequest.mk 2 None (Some "aci-bob") None 1.
Definition responseByE164 : MessageRequestModel :=
  MessageRequest.mk 3 (Some "+15550001") None None 1.

(** The selectors on the fixtures: which messages are outgoing, which are
    stories, who sent them, and when. *)
Definition isOutgoing (m : MessageAttributesType) : bool :=
  existsb (str_eqb (Message.id m)) ["outgoing-1"; "outgoing-2"; "outgoing-3"].
Definition isStory (m : MessageAttributesType) : bool :=
  existsb (str_eqb (Message.id m)) ["story-1"; "story-2"; "story-3"].
Definition getSourceServiceId (m : MessageAttributesType) : option string :=
  Message.sourceServiceId m.
Definition getMessageSentTimestamp (m : MessageAttributesType) : Z :=
  Message.sent_at m.

Definition bob : ConversationModel :=
  Conversation.mk recipient (Some "+15550001") (Some "aci-bob") None true.
Definition group1 : ConversationModel :=
  Conversation.mk "group-1" None None (Some "group-1") true.

(** A world that stores [messages] under the sent timestamp 1000 and
    knows the conversations [conversations]. *)
Definition worldOf (messages : list MessageAttributesType)
    (conversations : list ConversationModel)
    (groups : list ConversationModel) : World :=
  mkWorld true true ourAci false
    (fun id => List.find (fun c => str_eqb (Conversation.id c) id)
                         conversations)
    (fun identifier =>
       option_map Conversation.id
         (List.find
            (fun c => opt_str_eqb (Conversation.serviceId c) (Some identifier))
            conversations))
    (fun e164 serviceId =>
       List.find
         (fun c => (truthy e164 && opt_str_eqb (Conversation.e164 c) e164)
                   || (truthy serviceId
                       && opt_str_eqb (Conversation.serviceId c) serviceId))
         conversations)
    (fun _ message => message)
    (fun sentAt => Ok (if sentAt =? 1000 then messages else []))
    (fun _ => Ok groups)
    (fun _ => Ok tt)
    (Ok tt)
    (fun _ => Ok tt).

(** The same world with the read-receipt setting and the per-story
    view-receipt setting as given. *)
Definition withSettings (readReceipts storyViewReceipts : bool) (w : World)
    : World :=
  mkWorld readReceipts storyViewReceipts (getCheckedAci w) (SignalCI w)
    (ConversationController_get w)
    (ConversationController_getConversationId w)
    (ConversationController_lookupOrCreate w)
    (MessageController_register w)
    (getMessagesBySentAt w)
    (getAllGroupsInvolvingServiceId w)
    (deleteSentProtoBatcher_add w)
    (deleteSentProtoBatcher_flushAndWait w)
    (markViewOnceMessageViewed w).

(** A sync without [source], from another account than [incoming]. *)
Definition openedElsewhere : ViewOnceOpenSyncModel :=
  ViewOnceOpenSync.mk 2 None "aci-carol" 1000.
Definition openedBySource : ViewOnceOpenSyncModel :=
  ViewOnceOpenSync.mk 3 (Some "+15550001") "aci-carol" 1000.


(** A message of ours that was delivered to Bob with sealed sender. *)
Definition sealed : MessageAttributesType :=
  Message.mk "outgoing-4" recipient 1000 1000 None (Some ourAci) None
             (Some (sentTo recipient)) None (Some ["aci-bob"]) None None.

(** The same world with a batcher whose promises reject. *)
Definition withFailingBatcher (w : World) : World :=
  mkWorld (read_receipt_setting w) (getStoryViewReceiptsEnabled w)
    (getCheckedAci w) (SignalCI w)
    (ConversationController_get w)
    (ConversationController_getConversationId w)
    (ConversationController_lookupOrCreate w)
    (MessageController_register w)
    (getMessagesBySentAt w)
    (getAllGroupsInvolvingServiceId w)
    (fun _ => Threw "deleteSentProtoRecipient failed")
    (deleteSentProtoBatcher_flushAndWait w)
    (markViewOnceMessageViewed w).

(** The same world with a storage that cannot list the groups. *)
Definition withFailingGroups (w : World) : World :=
  mkWorld (read_receipt_setting w) (getStoryViewReceiptsEnabled w)
    (getCheckedAci w) (SignalCI w)
    (ConversationController_get w)
    (ConversationController_getConversationId w)
    (ConversationController_lookupOrCreate w)
    (MessageController_register w)
    (getMessagesBySentAt w)
    (fun _ => Threw "getAllGroupsInvolvingServiceId failed")
    (deleteSentProtoBatcher_add w)
    (deleteSentProtoBatcher_flushAndWait w)
    (markViewOnceMessageViewed w).

End Fixtures.

(** * Properties *)

(** ** The merge of a receipt into a send-state mapping *)

Section Merge.

Variable sendStateReducer : Reducer.

Lemma getNew_lookup_source (m : SendStateByConversationId)
    (receipt : MessageReceiptModel) :
  getNewSendStateByConversationId sendStateReducer m receipt
    !! get sourceConversationId receipt
  = Some (sendStateReducer
            (default defaultSendState (m !! get sourceConversationId receipt))
            (mkSendAction (sendActionTypeOf (get type receipt))
                          (get receiptTimestamp receipt))).
Proof.
  unfold getNewSendStateByConversationId, getOwn.
  apply lookup_insert_eq.
Qed.

Lemma getNew_lookup_other (m : SendStateByConversationId)
    (receipt : MessageReceiptModel) (k : string) :
  k ≠ get sourceConversationId receipt ->
  getNewSendStateByConversationId sendStateReducer m receipt !! k = m !! k.
Proof.
  intros Hk. unfold getNewSendStateByConversationId.
  apply lookup_insert_ne. congruence.
Qed.

Lemma getNew_not_empty (m : SendStateByConversationId)
    (receipt : MessageReceiptModel) :
  getNewSendStateByConversationId sendStateReducer m receipt ≠ ∅.
Proof.
  unfold getNewSendStateByConversationId. apply insert_non_empty.
Qed.

Hypothesis reducer_idempotent :
  forall s a, sendStateReducer (sendStateReducer s a) a = sendStateReducer s a.

Lemma getNew_idempotent (m : SendStateByConversationId)
    (receipt : MessageReceiptModel) :
  getNewSendStateByConversationId sendStateReducer
    (getNewSendStateByConversationId sendStateReducer m receipt) receipt
  = getNewSendStateByConversationId sendStateReducer m receipt.
Proof.
  unfold getNewSendStateByConversationId at 1. unfold getOwn. cbv zeta.
  rewrite getNew_lookup_source. cbn [from_option id].
  rewrite reducer_idempotent.
  unfold getNewSendStateByConversationId, getOwn. cbv zeta.
  apply insert_insert_eq.
Qed.

End Merge.

Lemma laterOf_again (old : option Z) (t : Z) :
  SpecLattice.laterOf (SpecLattice.laterOf old t) t = SpecLattice.laterOf old t.
Proof.
  unfold SpecLattice.laterOf.
  destruct old as [u|]; [destruct (Z.leb_spec u t) as [Hle|Hlt]|].
  - rewrite Z.leb_refl. reflexivity.
  - destruct (Z.leb_spec u t); [lia | reflexivity].
  - rewrite Z.leb_refl. reflexivity.
Qed.

Lemma laterOf_same (t : Z) :
  SpecLattice.laterOf (Some t) t = Some t.
Proof. unfold SpecLattice.laterOf. rewrite Z.leb_refl. reflexivity. Qed.

Lemma sendStateReducer_idempotent (s : SendState) (a : SendAction) :
  SpecLattice.sendStateReducer (SpecLattice.sendStateReducer s a) a
  = SpecLattice.sendStateReducer s a.
Proof.
  destruct s as [st u], a as [ty t].
  destruct st, ty;
    cbn [SpecLattice.sendStateReducer status updatedAt action_type
         action_updatedAt];
    rewrite ?laterOf_again, ?laterOf_same; reflexivity.
Qed.

(** The example of section 8 of the specification: [Sent], then a delivery
    receipt at 100, then a read receipt at 90. *)
Example lattice_out_of_order_read :
  SpecLattice.sendStateReducer
    (SpecLattice.sendStateReducer (mkSendState SendStatus.Sent None)
       (mkSendAction SendActionType.GotDeliveryReceipt 100))
    (mkSendAction SendActionType.GotReadReceipt 90)
  = mkSendState SendStatus.Read (Some 100).
Proof. reflexivity. Qed.

(** ** The two merges of [updateMessageSendState] *)

Lemma Message_ext (a b : Message.t) :
  Message.id a = Message.id b ->
  Message.conversationId a = Message.conversationId b ->
  Message.timestamp a = Message.timestamp b ->
  Message.sent_at a = Message.sent_at b ->
  Message.source a = Message.source b ->
  Message.sourceServiceId a = Message.sourceServiceId b ->
  Message.editMessageTimestamp a = Message.editMessageTimestamp b ->
  Message.sendStateByConversationId a = Message.sendStateByConversationId b ->
  Message.editHistory a = Message.editHistory b ->
  Message.unidentifiedDeliveries a = Message.unidentifiedDeliveries b ->
  Message.storyDistributionListId a = Message.storyDistributionListId b ->
  Message.deletedForEveryone a = Message.deletedForEveryone b ->
  a = b.
Proof. destruct a, b; cbn; intros; subst; reflexivity. Qed.

Section MergeReceipt.

Variable sendStateReducer : Reducer.

Local Abbreviation merge := (getNewSendStateByConversationId sendStateReducer).

(** [mergeReceipt] in one expression: which of the two [set]s it makes. *)
Lemma mergeReceipt_unfold (receipt : MessageReceiptModel) (m : MessageModel) :
  let editHistory := default [] (Message.editHistory m) in
  let newEditHistory := List.map (updateEdit sendStateReducer receipt) editHistory in
  let old := default ∅ (Message.sendStateByConversationId m) in
  let new := merge old receipt in
  let setsHistory := negb (isEqual newEditHistory editHistory) in
  let setsTopLevel := addressesTopLevel receipt m && negb (isEqual old new) in
  mergeReceipt sendStateReducer receipt m
  = ((if setsTopLevel then Message.set_sendStateByConversationId new else id)
       ((if setsHistory then Message.set_editHistory newEditHistory else id) m),
     setsHistory || setsTopLevel).
Proof.
  cbv zeta. unfold mergeReceipt, merge.
  destruct (negb (isEqual _ (default [] (Message.editHistory m)))); cbn [id];
    [ change (addressesTopLevel receipt (Message.set_editHistory _ m))
        with (addressesTopLevel receipt m);
      change (Message.sendStateByConversationId (Message.set_editHistory _ m))
        with (Message.sendStateByConversationId m) | ];
    destruct (addressesTopLevel receipt m); cbn [andb orb]; try reflexivity;
    destruct (negb (isEqual _ _)); reflexivity.
Qed.

Lemma mergeReceipt_editHistory (receipt : MessageReceiptModel)
    (m : MessageModel) :
  Message.editHistory (fst (mergeReceipt sendStateReducer receipt m))
  = option_map (List.map (updateEdit sendStateReducer receipt))
               (Message.editHistory m).
Proof.
  rewrite mergeReceipt_unfold. cbv zeta. cbn [fst].
  unfold isEqual.
  destruct (addressesTopLevel receipt m && _); cbn [id];
    case_bool_decide as Heq; cbn [negb id]; cbn;
    destruct (Message.editHistory m) as [eh|]; cbn in *;
    try reflexivity; congruence.
Qed.

Lemma mergeReceipt_sendState (receipt : MessageReceiptModel)
    (m : MessageModel) :
  Message.sendStateByConversationId
    (fst (mergeReceipt sendStateReducer receipt m))
  = if addressesTopLevel receipt m
    then Some (merge (default ∅ (Message.sendStateByConversationId m)) receipt)
    else Message.sendStateByConversationId m.
Proof.
  rewrite mergeReceipt_unfold. cbv zeta. cbn [fst].
  unfold isEqual.
  destruct (addressesTopLevel receipt m); cbn [andb].
  - case_bool_decide as Heq; cbn [negb].
    + cbn [id].
      assert (Message.sendStateByConversationId m
              = Some (merge (default ∅ (Message.sendStateByConversationId m))
                            receipt)) as Hm.
      { destruct (Message.sendStateByConversationId m) as [old|]; cbn in *.
        - congruence.
        - exfalso. symmetry in Heq. revert Heq. apply getNew_not_empty. }
      destruct (negb _); cbn [id]; exact Hm.
    + reflexivity.
  - cbn [id]. destruct (negb _); reflexivity.
Qed.

Lemma mergeReceipt_rest (receipt : MessageReceiptModel) (m : MessageModel) :
  let m' := fst (mergeReceipt sendStateReducer receipt m) in
  Message.id m' = Message.id m
  /\ Message.conversationId m' = Message.conversationId m
  /\ Message.timestamp m' = Message.timestamp m
  /\ Message.sent_at m' = Message.sent_at m
  /\ Message.source m' = Message.source m
  /\ Message.sourceServiceId m' = Message.sourceServiceId m
  /\ Message.editMessageTimestamp m' = Message.editMessageTimestamp m
  /\ Message.unidentifiedDeliveries m' = Message.unidentifiedDeliveries m
  /\ Message.storyDistributionListId m' = Message.storyDistributionListId m
  /\ Message.deletedForEveryone m' = Message.deletedForEveryone m.
Proof.
  cbv zeta. rewrite mergeReceipt_unfold. cbv zeta. cbn [fst].
  destruct (addressesTopLevel receipt m && _), (negb _); cbn;
    repeat split; reflexivity.
Qed.

(** [hasChanges] is set exactly when the message is not what it was. *)
Lemma mergeReceipt_hasChanges (receipt : MessageReceiptModel)
    (m : MessageModel) :
  snd (mergeReceipt sendStateReducer receipt m) = true
  <-> fst (mergeReceipt sendStateReducer receipt m) <> m.
Proof.
  pose proof (mergeReceipt_editHistory receipt m) as Hh.
  pose proof (mergeReceipt_sendState receipt m) as Hs.
  rewrite mergeReceipt_unfold in *. cbv zeta in *. cbn [fst snd] in *.
  unfold isEqual in *.
  destruct (bool_decide_reflect
              (List.map (updateEdit sendStateReducer receipt)
                        (default [] (Message.editHistory m))
               = default [] (Message.editHistory m))) as [Hhist|Hhist];
    cbn [negb orb id] in *.
  - destruct (addressesTopLevel receipt m); cbn [andb] in *.
    + destruct (bool_decide_reflect
                  (default ∅ (Message.sendStateByConversationId m)
                   = merge (default ∅ (Message.sendStateByConversationId m))
                           receipt)) as [Htop|Htop];
        cbn [negb id] in *.
      * split; [discriminate | congruence].
      * split; [intros _ | reflexivity].
        intros Hm. rewrite Hm in Hs.
        destruct (Message.sendStateByConversationId m); cbn in *; congruence.
    + cbn [id] in *. split; [discriminate | congruence].
  - split; [intros _ | reflexivity].
    intros Hm. rewrite Hm in Hh.
    destruct (Message.editHistory m); cbn in *; congruence.
Qed.

End MergeReceipt.

Section MergeTwice.

Variable sendStateReducer : Reducer.
Hypothesis reducer_idempotent :
  forall s a, sendStateReducer (sendStateReducer s a) a = sendStateReducer s a.

Lemma updateEdit_idempotent (receipt : MessageReceiptModel)
    (edit : EditHistoryType.t) :
  updateEdit sendStateReducer receipt
    (updateEdit sendStateReducer receipt edit)
  = updateEdit sendStateReducer receipt edit.
Proof.
  unfold updateEdit at 2.
  destruct (get messageSentAt receipt =? EditHistoryType.timestamp edit)
    eqn:Hts; cbn [negb].
  - unfold updateEdit. cbn [EditHistoryType.timestamp
                            EditHistoryType.sendStateByConversationId].
    rewrite Hts. cbn [negb from_option id].
    rewrite getNew_idempotent by assumption. reflexivity.
  - unfold updateEdit. rewrite Hts. reflexivity.
Qed.

(** A second merge of the same receipt sets nothing. *)
Lemma mergeReceipt_again (receipt : MessageReceiptModel) (m : MessageModel) :
  mergeReceipt sendStateReducer receipt
    (fst (mergeReceipt sendStateReducer receipt m))
  = (fst (mergeReceipt sendStateReducer receipt m), false).
Proof.
  set (m' := fst (mergeReceipt sendStateReducer receipt m)).
  pose proof (mergeReceipt_editHistory sendStateReducer receipt m) as Hh.
  pose proof (mergeReceipt_sendState sendStateReducer receipt m) as Hs.
  destruct (mergeReceipt_rest sendStateReducer receipt m)
    as (_ & _ & Hts & _ & _ & _ & Hets & _).
  fold m' in Hh, Hs, Hts, Hets.
  assert (addressesTopLevel receipt m' = addressesTopLevel receipt m) as Ha.
  { unfold addressesTopLevel. rewrite Hts, Hets. reflexivity. }
  rewrite mergeReceipt_unfold. cbv zeta. rewrite Ha, Hh, Hs.
  assert (isEqual
            (List.map (updateEdit sendStateReducer receipt)
               (default []
                  (option_map (List.map (updateEdit sendStateReducer receipt))
                              (Message.editHistory m))))
            (default []
               (option_map (List.map (updateEdit sendStateReducer receipt))
                           (Message.editHistory m))) = true) as ->.
  { apply bool_decide_eq_true.
    destruct (Message.editHistory m) as [eh|]; cbn; [|reflexivity].
    rewrite List.map_map. apply List.map_ext.
    intros edit. apply updateEdit_idempotent. }
  cbn [negb orb id].
  destruct (addressesTopLevel receipt m); cbn [andb from_option id];
    [|reflexivity].
  rewrite getNew_idempotent by assumption.
  unfold isEqual. rewrite bool_decide_eq_true_2 by reflexivity.
  reflexivity.
Qed.

End MergeTwice.

(** C2. Merging a receipt action into a per-recipient send state twice is
    the same as merging it once; and a second application of the same
    receipt to a send-state mapping, or to the mappings of a message (top
    level and edit history), changes nothing.  The reducer is the one that
    the specification describes. *)
Theorem receipt_merge_is_idempotent :
  (forall (s : SendState) (a : SendAction),
     SpecLattice.sendStateReducer (SpecLattice.sendStateReducer s a) a
     = SpecLattice.sendStateReducer s a)
  /\ (forall (m : SendStateByConversationId) (receipt : MessageReceiptModel),
        getNewSendStateByConversationId SpecLattice.sendStateReducer
          (getNewSendStateByConversationId SpecLattice.sendStateReducer
             m receipt) receipt
        = getNewSendStateByConversationId SpecLattice.sendStateReducer
            m receipt)
  /\ (forall (receipt : MessageReceiptModel) (message : MessageModel),
        mergeReceipt SpecLattice.sendStateReducer receipt
          (fst (mergeReceipt SpecLattice.sendStateReducer receipt message))
        = (fst (mergeReceipt SpecLattice.sendStateReducer receipt message),
           false)).
Proof.
  split; [exact sendStateReducer_idempotent|].
  split.
  - intros m receipt. apply getNew_idempotent.
    exact sendStateReducer_idempotent.
  - intros receipt message. apply mergeReceipt_again.
    exact sendStateReducer_idempotent.
Qed.

(** C10. When the mapping has no entry for the source conversation of the
    receipt, the merge starts from [{status: Sent, updatedAt: undefined}],
    and the new mapping has an entry for that conversation: the old entries
    and one more. *)
Theorem absent_recipient_gets_an_entry
    (sendStateReducer : Reducer) (m : SendStateByConversationId)
    (receipt : MessageReceiptModel) :
  m !! get sourceConversationId receipt = None ->
  getNewSendStateByConversationId sendStateReducer m receipt
    !! get sourceConversationId receipt
  = Some (sendStateReducer
            (mkSendState SendStatus.Sent None)
            (mkSendAction (sendActionTypeOf (get type receipt))
                          (get receiptTimestamp receipt)))
  /\ dom (getNewSendStateByConversationId sendStateReducer m receipt)
     = {[ get sourceConversationId receipt ]} ∪ dom m
  /\ size (getNewSendStateByConversationId sendStateReducer m receipt)
     = S (size m).
Proof.
  intros Hnone. split; [|split].
  - rewrite getNew_lookup_source, Hnone. reflexivity.
  - unfold getNewSendStateByConversationId. apply dom_insert_L.
  - unfold getNewSendStateByConversationId.
    apply map_size_insert_None. exact Hnone.
Qed.

Lemma absent_recipient_gets_an_entry_witness :
  (∅ : SendStateByConversationId) !! Fixtures.recipient = None
  /\ getNewSendStateByConversationId SpecLattice.sendStateReducer ∅
       Fixtures.delivery !! Fixtures.recipient
     = Some (mkSendState SendStatus.Delivered (Some 1100)).
Proof.
  split; [reflexivity|].
  exact (proj1 (absent_recipient_gets_an_entry SpecLattice.sendStateReducer ∅
                  Fixtures.delivery eq_refl)).
Defined.

(** ** [updateMessageSendState] *)

Section UpdateMessageSendState.

Variable isStory : MessageAttributesType -> bool.
Variable sendStateReducer : Reducer.
Variable w : World.

Local Abbreviation update :=
  (updateMessageSendState isStory sendStateReducer w).

Lemma update_dropped (receipt : MessageReceiptModel) (m : MessageModel) :
  shouldDropReceipt isStory w receipt m = true ->
  update receipt m
  = mkUpdate m [Log Info "MessageReceipts: Dropping a receipt"] (Ok tt).
Proof.
  intros Hdrop. unfold update, updateMessageSendState.
  rewrite Hdrop. reflexivity.
Qed.

Lemma update_applied (receipt : MessageReceiptModel) (m : MessageModel) :
  shouldDropReceipt isStory w receipt m = false ->
  let merged := mergeReceipt sendStateReducer receipt m in
  update receipt m
  = mkUpdate (fst merged)
      ((if snd merged then persistAndNotify w (fst merged) else [])
         ++ fst (deleteSentProto w receipt (fst merged)))
      (snd (deleteSentProto w receipt (fst merged))).
Proof.
  intros Hdrop. cbv zeta. unfold update, updateMessageSendState.
  rewrite Hdrop.
  destruct (mergeReceipt sendStateReducer receipt m) as [m' hasChanges].
  cbn [fst snd].
  destruct (deleteSentProto w receipt m') as [cleanup result].
  reflexivity.
Qed.

(** The request to forget the sent proto neither persists nor notifies. *)
Lemma deleteSentProto_effects (receipt : MessageReceiptModel)
    (m : MessageModel) (e : Effect) :
  In e (fst (deleteSentProto w receipt m)) ->
  match e with
  | QueueUpdateMessage _ | DebouncedUpdateLastMessage _ => False
  | _ => True
  end.
Proof.
  unfold deleteSentProto.
  destruct (_ || _)%bool; cbn [fst]; [|intros []].
  destruct (_ ≫= _) as [serviceId|]; cbn [fst].
  - destruct (_ && _)%bool; [destruct (SignalCI w)|]; cbn [fst In];
      intuition (subst; exact I).
  - cbn [In]. intuition (subst; exact I).
Qed.

Lemma update_editHistory (receipt : MessageReceiptModel) (m : MessageModel) :
  shouldDropReceipt isStory w receipt m = false ->
  default [] (Message.editHistory (model (update receipt m)))
  = List.map (updateEdit sendStateReducer receipt)
             (default [] (Message.editHistory m)).
Proof.
  intros Hdrop. rewrite (update_applied _ _ Hdrop). cbv zeta. cbn [model].
  rewrite mergeReceipt_editHistory.
  destruct (Message.editHistory m); reflexivity.
Qed.

(** What is persisted and who is notified, in terms of the message. *)
Lemma update_persists (receipt : MessageReceiptModel) (m : MessageModel)
    (attributes : MessageAttributesType) :
  In (QueueUpdateMessage attributes) (effects (update receipt m))
  <-> model (update receipt m) <> m /\ attributes = model (update receipt m).
Proof.
  destruct (shouldDropReceipt isStory w receipt m) eqn:Hdrop.
  - rewrite (update_dropped _ _ Hdrop). cbn [effects model In].
    split; [intros [Hlog|[]]; discriminate | intros [Hne _]; congruence].
  - rewrite (update_applied _ _ Hdrop). cbv zeta. cbn [effects model].
    rewrite <- mergeReceipt_hasChanges.
    rewrite in_app_iff. split.
    + intros [Hin|Hin].
      * destruct (snd (mergeReceipt sendStateReducer receipt m));
          [|destruct Hin].
        unfold persistAndNotify in Hin. destruct Hin as [Heq|Hin].
        { split; [reflexivity | congruence]. }
        { exfalso.
          destruct (ConversationController_get w _) as [c|]; [|destruct Hin].
          destruct (Conversation.debouncedUpdateLastMessage c);
            [|destruct Hin].
          destruct Hin as [Heq|[]]; discriminate. }
      * exfalso. exact (deleteSentProto_effects _ _ _ Hin).
    + intros [Hchanged ->]. left. rewrite Hchanged. left. reflexivity.
Qed.

Lemma update_notifies (receipt : MessageReceiptModel) (m : MessageModel)
    (conversationId : string) :
  In (DebouncedUpdateLastMessage conversationId)
     (effects (update receipt m))
  <-> model (update receipt m) <> m
      /\ exists conversation,
           ConversationController_get w (Message.conversationId m)
           = Some conversation
           /\ Conversation.debouncedUpdateLastMessage conversation = true
           /\ conversationId = Conversation.id conversation.
Proof.
  destruct (shouldDropReceipt isStory w receipt m) eqn:Hdrop.
  - rewrite (update_dropped _ _ Hdrop). cbn [effects model In].
    split; [intros [Hlog|[]]; discriminate | intros [Hne _]; congruence].
  - rewrite (update_applied _ _ Hdrop). cbv zeta. cbn [effects model].
    rewrite <- mergeReceipt_hasChanges.
    destruct (mergeReceipt_rest sendStateReducer receipt m)
      as (_ & Hconv & _).
    rewrite in_app_iff. unfold persistAndNotify. rewrite Hconv. split.
    + intros [Hin|Hin].
      * destruct (snd (mergeReceipt sendStateReducer receipt m));
          [|destruct Hin].
        split; [reflexivity|].
        destruct Hin as [Heq|Hin]; [discriminate|].
        destruct (ConversationController_get w _) as [c|]; [|destruct Hin].
        exists c.
        destruct (Conversation.debouncedUpdateLastMessage c);
          [|destruct Hin].
        destruct Hin as [Heq|[]].
        split; [reflexivity|]. split; [reflexivity|]. congruence.
      * exfalso. exact (deleteSentProto_effects _ _ _ Hin).
    + intros [Hchanged (c & Hget & Hdeb & ->)]. left.
      rewrite Hchanged, Hget, Hdeb. right. left. reflexivity.
Qed.

Lemma update_changed (receipt : MessageReceiptModel) (m : MessageModel) :
  model (update receipt m) <> m
  <-> Message.sendStateByConversationId (model (update receipt m))
      <> Message.sendStateByConversationId m
      \/ Message.editHistory (model (update receipt m))
         <> Message.editHistory m.
Proof.
  split; [|intros [Hne|Hne] Heq; apply Hne; rewrite Heq; reflexivity].
  intros Hne.
  destruct (decide (Message.sendStateByConversationId
                      (model (update receipt m))
                    = Message.sendStateByConversationId m)) as [Hs|Hs];
    [|left; exact Hs].
  right. intros Hh. apply Hne.
  destruct (shouldDropReceipt isStory w receipt m) eqn:Hdrop.
  - rewrite (update_dropped _ _ Hdrop). reflexivity.
  - rewrite (update_applied _ _ Hdrop) in *. cbv zeta in *. cbn [model] in *.
    destruct (mergeReceipt_rest sendStateReducer receipt m)
      as (? & ? & ? & ? & ? & ? & ? & ? & ? & ?).
    apply Message_ext; assumption.
Qed.

End UpdateMessageSendState.

Lemma lookup_map {A B : Type} (f : A -> B) (l : list A) (i : nat) :
  List.map f l !! i = option_map f (l !! i).
Proof.
  revert i. induction l as [|x l IH]; intros [|i]; cbn; auto.
Qed.

(** C3. When a receipt is applied to a message (the policy does not drop
    it), the top-level send-state mapping is left as it was unless the
    receipt's [messageSentAt] is the message's [timestamp] or its
    [editMessageTimestamp], in which case it becomes the merged mapping; and
    every revision of the edit history whose [timestamp] is [messageSentAt]
    gets the receipt merged into its own mapping, while every other revision
    is returned unchanged, at the same position. *)
Theorem receipt_updates_top_level_and_matching_revisions
    (isStory : MessageAttributesType -> bool) (sendStateReducer : Reducer)
    (w : World) (receipt : MessageReceiptModel) (message : MessageModel) :
  shouldDropReceipt isStory w receipt message = false ->
  let messageSentAt := get messageSentAt receipt in
  let merge old :=
    getNewSendStateByConversationId sendStateReducer (default ∅ old) receipt in
  let message' :=
    model (updateMessageSendState isStory sendStateReducer w receipt message) in
  let editHistory := default [] (Message.editHistory message) in
  let editHistory' := default [] (Message.editHistory message') in
  (messageSentAt <> Message.timestamp message ->
   Some messageSentAt <> Message.editMessageTimestamp message ->
   Message.sendStateByConversationId message'
   = Message.sendStateByConversationId message)
  /\ (messageSentAt = Message.timestamp message
      \/ Some messageSentAt = Message.editMessageTimestamp message ->
      Message.sendStateByConversationId message'
      = Some (merge (Message.sendStateByConversationId message)))
  /\ length editHistory' = length editHistory
  /\ (forall (i : nat) (edit : EditHistoryType.t),
        editHistory !! i = Some edit ->
        (EditHistoryType.timestamp edit = messageSentAt ->
         editHistory' !! i
         = Some (EditHistoryType.mk
                   (EditHistoryType.timestamp edit)
                   (Some (merge (EditHistoryType.sendStateByConversationId
                                   edit)))))
        /\ (EditHistoryType.timestamp edit <> messageSentAt ->
            editHistory' !! i = Some edit)).
Proof.
  intros Hdrop. cbv zeta.
  pose proof (update_editHistory isStory sendStateReducer w receipt message
                Hdrop) as Hh.
  rewrite Hh.
  rewrite (update_applied _ _ _ _ _ Hdrop). cbv zeta. cbn [model].
  rewrite mergeReceipt_sendState. unfold addressesTopLevel.
  split; [|split; [|split]].
  - intros Hts Hets.
    destruct (Z.eqb_spec (get messageSentAt receipt)
                         (Message.timestamp message)); [contradiction|].
    rewrite bool_decide_eq_false_2 by assumption. reflexivity.
  - intros [Hts|Hets].
    + rewrite Hts, Z.eqb_refl. reflexivity.
    + rewrite (bool_decide_eq_true_2 _ Hets), orb_true_r. reflexivity.
  - apply List.length_map.
  - intros i edit Hi. rewrite lookup_map, Hi. cbn [option_map].
    unfold updateEdit. split.
    + intros Hts. rewrite Hts, Z.eqb_refl. reflexivity.
    + intros Hts.
      destruct (Z.eqb_spec (get messageSentAt receipt)
                           (EditHistoryType.timestamp edit)); [congruence|].
      reflexivity.
Qed.

Lemma receipt_updates_top_level_and_matching_revisions_witness :
  let w := Fixtures.worldOf [Fixtures.edited] [Fixtures.bob] [] in
  let message' :=
    model (updateMessageSendState Fixtures.isStory SpecLattice.sendStateReducer
             w Fixtures.delivery Fixtures.edited) in
  let delivered : SendStateByConversationId :=
    {[ Fixtures.recipient := mkSendState SendStatus.Delivered (Some 1100) ]} in
  shouldDropReceipt Fixtures.isStory w Fixtures.delivery Fixtures.edited = false
  /\ Message.sendStateByConversationId message' = Some delivered
  /\ default [] (Message.editHistory message') !! 0%nat
     = Some (EditHistoryType.mk 1000 (Some delivered))
  /\ default [] (Message.editHistory message') !! 1%nat
     = Some (EditHistoryType.mk 900 (Some (Fixtures.sentTo Fixtures.recipient))).
Proof.
  cbv zeta.
  destruct (receipt_updates_top_level_and_matching_revisions
              Fixtures.isStory SpecLattice.sendStateReducer
              (Fixtures.worldOf [Fixtures.edited] [Fixtures.bob] [])
              Fixtures.delivery Fixtures.edited eq_refl)
    as (_ & Htop & _ & Hedits).
  split; [reflexivity|].
  split; [rewrite Htop; [vm_compute; reflexivity | right; reflexivity]|].
  split.
  - rewrite (proj1 (Hedits 0%nat (EditHistoryType.mk 1000 None) eq_refl) eq_refl).
    vm_compute. reflexivity.
  - apply (proj2 (Hedits 1%nat
                    (EditHistoryType.mk 900
                       (Some (Fixtures.sentTo Fixtures.recipient)))
                    eq_refl)).
    vm_compute. discriminate.
Defined.

(** C4, as the code has it.  The message is persisted if and only if a
    mapping of the message changed, and what is persisted is the changed
    message; the last-message notification is issued if and only if a
    mapping changed and the conversation controller knows the conversation
    of the message and that conversation defines the debounced update.  A
    receipt that changes no mapping persists nothing and notifies nobody. *)
Theorem persist_and_notify_follow_change
    (isStory : MessageAttributesType -> bool) (sendStateReducer : Reducer)
    (w : World) (receipt : MessageReceiptModel) (message : MessageModel) :
  let update :=
    updateMessageSendState isStory sendStateReducer w receipt message in
  let changed :=
    Message.sendStateByConversationId (model update)
    <> Message.sendStateByConversationId message
    \/ Message.editHistory (model update) <> Message.editHistory message in
  (forall attributes : MessageAttributesType,
     In (QueueUpdateMessage attributes) (effects update)
     <-> changed /\ attributes = model update)
  /\ (forall conversationId : string,
        In (DebouncedUpdateLastMessage conversationId) (effects update)
        <-> changed
            /\ exists conversation : ConversationModel,
                 ConversationController_get w (Message.conversationId message)
                 = Some conversation
                 /\ Conversation.debouncedUpdateLastMessage conversation = true
                 /\ conversationId = Conversation.id conversation).
Proof.
  cbv zeta. split.
  - intros attributes. rewrite <- update_changed. apply update_persists.
  - intros conversationId. rewrite <- update_changed. apply update_notifies.
Qed.

(** C4 as stated fails: with a conversation that the controller does not
    know, a delivery receipt changes the top-level mapping and the message
    is persisted, yet no last-message notification is issued. *)
Lemma changed_mapping_without_notification :
  let update :=
    updateMessageSendState Fixtures.isStory SpecLattice.sendStateReducer
      (Fixtures.worldOf [Fixtures.outgoing] [] [])
      Fixtures.delivery Fixtures.outgoing in
  Message.sendStateByConversationId (model update)
  <> Message.sendStateByConversationId Fixtures.outgoing
  /\ In (QueueUpdateMessage (model update)) (effects update)
  /\ ~ exists conversationId : string,
         In (DebouncedUpdateLastMessage conversationId) (effects update).
Proof.
  cbv zeta. split; [|split].
  - vm_compute. discriminate.
  - vm_compute. left. reflexivity.
  - intros [conversationId Hin]. vm_compute in Hin.
    destruct Hin as [Heq|[]]. discriminate.
Qed.

(** ** [getTargetMessage] *)

Lemma find_first {A : Type} (p : A -> bool) (pre post : list A) (x : A) :
  Forall (fun y => p y = false) pre ->
  p x = true ->
  List.find p (pre ++ x :: post) = Some x.
Proof.
  induction 1 as [|y pre Hy _ IH]; intros Hx; cbn.
  - rewrite Hx. reflexivity.
  - rewrite Hy. apply IH. exact Hx.
Qed.

Lemma find_nowhere {A : Type} (p : A -> bool) (l : list A) :
  Forall (fun y => p y = false) l -> List.find p l = None.
Proof.
  induction 1 as [|y l Hy _ IH]; cbn; [reflexivity|].
  rewrite Hy. exact IH.
Qed.

Lemma Forall_not_true {A : Type} (p : A -> bool) (P : A -> Prop) (l : list A) :
  (forall y, p y = true -> P y) ->
  Forall (fun y => ~ P y) l ->
  Forall (fun y => p y = false) l.
Proof.
  intros Hp. apply List.Forall_impl. intros y Hn.
  destruct (p y) eqn:Hy; [|reflexivity].
  exfalso. apply Hn, Hp, Hy.
Qed.

Lemma str_eqb_true (a b : string) : str_eqb a b = true <-> a = b.
Proof. unfold str_eqb. apply bool_decide_eq_true. Qed.

Lemma existsb_str_eqb (a : string) (l : list string) :
  existsb (str_eqb a) l = true <-> In a l.
Proof.
  rewrite existsb_exists. split.
  - intros (x & Hin & Heq). apply str_eqb_true in Heq. subst. exact Hin.
  - intros Hin. exists a. split; [exact Hin | apply str_eqb_true; reflexivity].
Qed.

Section TargetMessage.

Variable isOutgoing : MessageAttributesType -> bool.
Variable isStory : MessageAttributesType -> bool.
Variable w : World.

Lemma isDirectTarget_true (sourceId : string) (item : MessageAttributesType) :
  isDirectTarget isOutgoing isStory sourceId item = true
  <-> directTarget isOutgoing isStory sourceId item.
Proof.
  unfold isDirectTarget, directTarget.
  rewrite andb_true_iff, orb_true_iff, str_eqb_true.
  intuition congruence.
Qed.

Lemma isGroupTarget_true (groups : list Conversation.t) (sourceId : string)
    (item : MessageAttributesType) :
  isGroupTarget isOutgoing isStory
    (List.map Conversation.id groups ++ [sourceId]) item = true
  <-> groupTarget isOutgoing isStory groups sourceId item.
Proof.
  unfold isGroupTarget, groupTarget.
  rewrite andb_true_iff, orb_true_iff, existsb_str_eqb, in_app_iff,
    in_map_iff.
  cbn [In]. split.
  - intros [He [(g & Hid & Hin)|[Hs|[]]]]; split; auto.
    left. exists g. auto.
  - intros [He [(g & Hin & Hid)|Hs]]; split; auto.
    left. exists g. auto.
Qed.

Lemma getTargetMessage_direct (sourceId serviceId : string)
    (pre post : list MessageAttributesType) (message : MessageAttributesType) :
  Forall (fun item => ~ directTarget isOutgoing isStory sourceId item) pre ->
  directTarget isOutgoing isStory sourceId message ->
  getTargetMessage isOutgoing isStory w sourceId serviceId
    (pre ++ message :: post)
  = Ok (Some (register w message)).
Proof.
  intros Hpre Hm. unfold getTargetMessage.
  rewrite length_app. cbn [length]. rewrite Nat.add_succ_r. cbn [Nat.eqb].
  rewrite (find_first _ pre post message); [reflexivity| |].
  - eapply Forall_not_true; [|exact Hpre].
    intros y. apply isDirectTarget_true.
  - apply isDirectTarget_true. exact Hm.
Qed.

Lemma getTargetMessage_indirect (sourceId serviceId : string)
    (messages : list MessageAttributesType) (groups : list Conversation.t) :
  Forall (fun item => ~ directTarget isOutgoing isStory sourceId item)
         messages ->
  getAllGroupsInvolvingServiceId w serviceId = Ok groups ->
  getTargetMessage isOutgoing isStory w sourceId serviceId messages
  = Ok (option_map (register w)
          (List.find
             (isGroupTarget isOutgoing isStory
                (List.map Conversation.id groups ++ [sourceId]))
             messages)).
Proof.
  intros Hnone Hgroups. unfold getTargetMessage.
  destruct messages as [|m messages]; [reflexivity|].
  cbn [length Nat.eqb].
  rewrite (find_nowhere (isDirectTarget isOutgoing isStory sourceId)).
  - rewrite Hgroups. cbv zeta.
    destruct (List.find _ (m :: messages)); reflexivity.
  - eapply Forall_not_true; [|exact Hnone].
    intros y. apply isDirectTarget_true.
Qed.

End TargetMessage.

(** C5. The matcher returns nothing for an empty list of candidates.  It
    returns the first candidate that is outgoing or a story and lies in the
    source conversation of the receipt.  Only when there is no such
    candidate does it return the first candidate that is outgoing or a story
    and lies in a group that involves the source identity (or in the source
    conversation), and nothing when there is none either. *)
Theorem getTargetMessage_first_match_in_priority_order
    (isOutgoing isStory : MessageAttributesType -> bool) (w : World)
    (sourceId serviceId : string) :
  let matcher := getTargetMessage isOutgoing isStory w sourceId serviceId in
  let direct := directTarget isOutgoing isStory sourceId in
  matcher [] = Ok None
  /\ (forall (pre post : list MessageAttributesType)
             (message : MessageAttributesType),
        Forall (fun item => ~ direct item) pre ->
        direct message ->
        matcher (pre ++ message :: post) = Ok (Some (register w message)))
  /\ (forall (groups : list Conversation.t)
             (messages : list MessageAttributesType),
        let viaGroup := groupTarget isOutgoing isStory groups sourceId in
        Forall (fun item => ~ direct item) messages ->
        getAllGroupsInvolvingServiceId w serviceId = Ok groups ->
        (forall (pre post : list MessageAttributesType)
                (target : MessageAttributesType),
           messages = pre ++ target :: post ->
           Forall (fun item => ~ viaGroup item) pre ->
           viaGroup target ->
           matcher messages = Ok (Some (register w target)))
        /\ (Forall (fun item => ~ viaGroup item) messages ->
            matcher messages = Ok None)).
Proof.
  cbv zeta. split; [reflexivity|]. split.
  - intros pre post message Hpre Hm. apply getTargetMessage_direct; assumption.
  - intros groups messages Hnone Hgroups.
    rewrite (getTargetMessage_indirect _ _ _ _ _ _ _ Hnone Hgroups).
    split.
    + intros pre post target -> Hpre Ht.
      rewrite (find_first _ pre post target); [reflexivity| |].
      * eapply Forall_not_true; [|exact Hpre].
        intros y. apply isGroupTarget_true.
      * apply isGroupTarget_true. exact Ht.
    + intros Hnot. rewrite find_nowhere; [reflexivity|].
      eapply Forall_not_true; [|exact Hnot].
      intros y. apply isGroupTarget_true.
Qed.

Lemma getTargetMessage_first_match_in_priority_order_witness :
  let w := Fixtures.worldOf [] [] [Fixtures.group1] in
  let matcher :=
    getTargetMessage Fixtures.isOutgoing Fixtures.isStory w
      Fixtures.recipient "aci-bob" in
  matcher [Fixtures.incoming; Fixtures.inGroup; Fixtures.outgoing]
  = Ok (Some Fixtures.outgoing)
  /\ matcher [Fixtures.incoming; Fixtures.inGroup] = Ok (Some Fixtures.inGroup).
Proof.
  cbv zeta.
  destruct (getTargetMessage_first_match_in_priority_order
              Fixtures.isOutgoing Fixtures.isStory
              (Fixtures.worldOf [] [] [Fixtures.group1])
              Fixtures.recipient "aci-bob") as (_ & Hdirect & Hgroup).
  assert (~ directTarget Fixtures.isOutgoing Fixtures.isStory
              Fixtures.recipient Fixtures.incoming) as Hincoming.
  { intros [[H|H] _]; vm_compute in H; discriminate. }
  assert (~ directTarget Fixtures.isOutgoing Fixtures.isStory
              Fixtures.recipient Fixtures.inGroup) as HinGroup.
  { intros [_ H]. vm_compute in H. discriminate. }
  split.
  - apply (Hdirect [Fixtures.incoming; Fixtures.inGroup] []
                   Fixtures.outgoing).
    + repeat constructor; assumption.
    + split; [left|]; reflexivity.
  - destruct (Hgroup [Fixtures.group1]
                     [Fixtures.incoming; Fixtures.inGroup]) as [Hfound _].
    + repeat constructor; assumption.
    + reflexivity.
    + apply (Hfound [Fixtures.incoming] [] Fixtures.inGroup).
      * reflexivity.
      * repeat constructor. intros [[H|H] _]; vm_compute in H; discriminate.
      * split; [left; reflexivity|].
        left. exists Fixtures.group1. split; [left|]; reflexivity.
Defined.

(** ** [onReceipt] and [onSync] *)

Lemma remove_self {Model : Type} `{BackboneModel Model}
    (item : Model) (this : list Model) :
  ~ In item (remove [item] this).
Proof.
  unfold remove. rewrite filter_In. intros [_ Hkept].
  cbn [existsb] in Hkept. rewrite Nat.eqb_refl in Hkept. discriminate.
Qed.

Lemma remove_others {Model : Type} `{BackboneModel Model}
    (item other : Model) (this : list Model) :
  cidOf other <> cidOf item ->
  In other this -> In other (remove [item] this).
Proof.
  intros Hcid Hin. unfold remove. rewrite filter_In. split; [exact Hin|].
  cbn [existsb]. rewrite orb_false_r.
  destruct (Nat.eqb_spec (cidOf item) (cidOf other)); [congruence|reflexivity].
Qed.

Section OnReceipt.

Variable isOutgoing : MessageAttributesType -> bool.
Variable isStory : MessageAttributesType -> bool.
Variable sendStateReducer : Reducer.
Variable w : World.

Local Abbreviation update :=
  (updateMessageSendState isStory sendStateReducer w).
Local Abbreviation reconcile :=
  (onReceipt isOutgoing isStory sendStateReducer w).
Local Abbreviation matcher := (getTargetMessage isOutgoing isStory w).

Lemma onReceipt_single (this : list MessageReceiptModel)
    (receipt : MessageReceiptModel) (messages : list MessageAttributesType)
    (message : MessageModel) :
  getMessagesBySentAt w (get messageSentAt receipt) = Ok messages ->
  matcher (get sourceConversationId receipt) (get sourceServiceId receipt)
          messages = Ok (Some message) ->
  reconcile this receipt
  = match settled (update receipt message) with
    | Ok _ =>
      mkReconciled (remove [receipt] this) (effects (update receipt message))
                   [update receipt message]
    | Threw _ =>
      mkReconciled this
        (effects (update receipt message)
           ++ [Log Error "MessageReceipts.onReceipt error:"])
        [update receipt message]
    end.
Proof.
  intros Hmessages Hmatch. unfold onReceipt. cbv zeta.
  rewrite Hmessages, Hmatch. reflexivity.
Qed.

Lemma onReceipt_stories (this : list MessageReceiptModel)
    (receipt : MessageReceiptModel) (messages : list MessageAttributesType) :
  getMessagesBySentAt w (get messageSentAt receipt) = Ok messages ->
  matcher (get sourceConversationId receipt) (get sourceServiceId receipt)
          messages = Ok None ->
  let targetMessages :=
    List.filter (isStoryCopy (get sourceConversationId receipt)) messages in
  let all :=
    List.map (fun msg => update receipt (register w msg)) targetMessages in
  reconcile this receipt
  = match targetMessages with
    | [] =>
      mkReconciled this [Log Info "MessageReceipts: No message for receipt"] []
    | _ :: _ =>
      match Promise_all (List.map settled all) with
      | Ok _ =>
        mkReconciled (remove [receipt] this) (List.concat (List.map effects all))
                     all
      | Threw _ =>
        mkReconciled this
          (List.concat (List.map effects all)
             ++ [Log Error "MessageReceipts.onReceipt error:"])
          all
      end
    end.
Proof.
  intros Hmessages Hmatch. cbv zeta. unfold onReceipt. cbv zeta.
  rewrite Hmessages, Hmatch.
  destruct (List.filter _ messages); reflexivity.
Qed.

Lemma Promise_all_resolves (promises : list (Outcome unit)) :
  Forall (fun promise => promise = Ok tt) promises ->
  Promise_all promises = Ok tt.
Proof.
  induction 1 as [|p l Hp _ IH]; cbn; [reflexivity|].
  rewrite Hp. exact IH.
Qed.

End OnReceipt.

(** What [onReceipt] does with the story copies when the matcher finds no
    single target: it calls [updateMessageSendState] on the registered
    model of each of them, in the order of the candidates, and on no other
    message. *)
Lemma onReceipt_updates_the_story_copies
    (isOutgoing isStory : MessageAttributesType -> bool)
    (sendStateReducer : Reducer) (w : World)
    (this : list MessageReceiptModel) (receipt : MessageReceiptModel)
    (messages : list MessageAttributesType) :
  getMessagesBySentAt w (get messageSentAt receipt) = Ok messages ->
  getTargetMessage isOutgoing isStory w (get sourceConversationId receipt)
    (get sourceServiceId receipt) messages = Ok None ->
  updates (onReceipt isOutgoing isStory sendStateReducer w this receipt)
  = List.map
      (fun item =>
         updateMessageSendState isStory sendStateReducer w receipt
           (register w item))
      (List.filter (isStoryCopy (get sourceConversationId receipt)) messages).
Proof.
  intros Hmessages Hmatch.
  rewrite (onReceipt_stories _ _ _ _ _ _ _ Hmessages Hmatch). cbv zeta.
  destruct (List.filter _ messages) as [|m l]; [reflexivity|].
  destruct (Promise_all _); reflexivity.
Qed.

(** The effects of these calls are effects of [onReceipt], whether or not
    one of the calls rejects. *)
Lemma onReceipt_issues_the_effects_of_its_updates
    (isOutgoing isStory : MessageAttributesType -> bool)
    (sendStateReducer : Reducer) (w : World)
    (this : list MessageReceiptModel) (receipt : MessageReceiptModel)
    (messages : list MessageAttributesType)
    (update : Update) (e : Effect) :
  getMessagesBySentAt w (get messageSentAt receipt) = Ok messages ->
  getTargetMessage isOutgoing isStory w (get sourceConversationId receipt)
    (get sourceServiceId receipt) messages = Ok None ->
  In update
     (updates (onReceipt isOutgoing isStory sendStateReducer w this receipt)) ->
  In e (effects update) ->
  In e (trace (onReceipt isOutgoing isStory sendStateReducer w this receipt)).
Proof.
  intros Hmessages Hmatch.
  rewrite (onReceipt_stories _ _ _ _ _ _ _ Hmessages Hmatch). cbv zeta.
  destruct (List.filter _ messages) as [|m l]; [intros []|].
  assert (forall all : list Update,
            In update all -> In e (effects update) ->
            In e (List.concat (List.map effects all))) as Hissued.
  { intros all Hup He. apply in_concat. exists (effects update).
    split; [apply in_map; exact Hup | exact He]. }
  destruct (Promise_all _); cbn [updates trace]; intros Hup He.
  - apply Hissued; assumption.
  - apply in_app_iff. left. apply Hissued; assumption.
Qed.

Lemma isStoryCopy_true (sourceConversationId : string)
    (item : MessageAttributesType) :
  isStoryCopy sourceConversationId item = true
  <-> truthy (Message.storyDistributionListId item) = true
      /\ default false (Message.deletedForEveryone item) = false
      /\ exists sendStateByConversationId,
           Message.sendStateByConversationId item
           = Some sendStateByConversationId
           /\ is_Some (sendStateByConversationId !! sourceConversationId).
Proof.
  unfold isStoryCopy.
  rewrite !andb_true_iff, negb_true_iff, bool_decide_eq_true.
  destruct (Message.sendStateByConversationId item) as [states|].
  - rewrite bool_decide_eq_true. split.
    + intros [[[Hlist _] Hdeleted] Hentry]. eauto.
    + intros (Hlist & Hdeleted & states' & [= <-] & Hentry). eauto.
  - split.
    + intros [_ Hno]. discriminate.
    + intros (_ & _ & states & Hno & _). discriminate.
Qed.

(** C6, as the code has it.  When the matcher finds no single target for a
    receipt, every candidate that has a story distribution list, is not
    deleted for everyone and holds a send state for the source conversation
    of the receipt is handled, all of them and not just one, and no other
    message is; what [updateMessageSendState] issues for a copy is issued
    by [onReceipt].  If
    the policy does not drop the receipt for the copy, the receipt is
    merged into the copy: into its top-level mapping when [messageSentAt]
    is its timestamp or its edit timestamp, where the state of the source
    conversation becomes what the reducer makes of its state, and into
    every revision with that timestamp; and a copy that the merge changed
    is persisted as changed.  If the policy drops the receipt for the copy,
    the copy stays as it is and only the drop is logged.  When all the
    copies are handled without an error the receipt leaves the buffer. *)
Theorem receipt_is_merged_into_every_story_copy_not_dropped
    (isOutgoing isStory : MessageAttributesType -> bool)
    (sendStateReducer : Reducer) (w : World)
    (this : list MessageReceiptModel) (receipt : MessageReceiptModel)
    (messages : list MessageAttributesType) :
  getMessagesBySentAt w (get messageSentAt receipt) = Ok messages ->
  getTargetMessage isOutgoing isStory w (get sourceConversationId receipt)
    (get sourceServiceId receipt) messages = Ok None ->
  let result := onReceipt isOutgoing isStory sendStateReducer w this receipt in
  let sourceConversationId := get sourceConversationId receipt in
  let messageSentAt := get messageSentAt receipt in
  let action :=
    mkSendAction (sendActionTypeOf (get type receipt))
                 (get receiptTimestamp receipt) in
  let merge old :=
    getNewSendStateByConversationId sendStateReducer (default ∅ old) receipt in
  let storyCopy item :=
    In item messages
    /\ truthy (Message.storyDistributionListId item) = true
    /\ default false (Message.deletedForEveryone item) = false
    /\ exists sendStateByConversationId,
         Message.sendStateByConversationId item
         = Some sendStateByConversationId
         /\ is_Some (sendStateByConversationId !! sourceConversationId) in
  (forall item : MessageAttributesType,
     storyCopy item ->
     let copy := register w item in
     let update :=
       updateMessageSendState isStory sendStateReducer w receipt copy in
     let copy' := model update in
     In update (updates result)
     /\ (forall e : Effect, In e (effects update) -> In e (trace result))
     /\ (shouldDropReceipt isStory w receipt copy = false ->
         (messageSentAt = Message.timestamp copy
          \/ Some messageSentAt = Message.editMessageTimestamp copy ->
          Message.sendStateByConversationId copy'
          = Some (merge (Message.sendStateByConversationId copy))
          /\ default ∅ (Message.sendStateByConversationId copy')
               !! sourceConversationId
             = Some (sendStateReducer
                       (default defaultSendState
                          (default ∅ (Message.sendStateByConversationId copy)
                             !! sourceConversationId))
                       action))
         /\ (forall (i : nat) (edit : EditHistoryType.t),
               default [] (Message.editHistory copy) !! i = Some edit ->
               EditHistoryType.timestamp edit = messageSentAt ->
               default [] (Message.editHistory copy') !! i
               = Some (EditHistoryType.mk
                         (EditHistoryType.timestamp edit)
                         (Some (merge
                                  (EditHistoryType.sendStateByConversationId
                                     edit)))))
         /\ (copy' <> copy -> In (QueueUpdateMessage copy') (trace result)))
     /\ (shouldDropReceipt isStory w receipt copy = true ->
         copy' = copy
         /\ effects update
            = [Log Info "MessageReceipts: Dropping a receipt"]))
  /\ (forall update : Update,
        In update (updates result) ->
        exists item : MessageAttributesType,
          storyCopy item
          /\ update
             = updateMessageSendState isStory sendStateReducer w receipt
                 (register w item))
  /\ ((exists item, storyCopy item) ->
      (forall item,
         storyCopy item ->
         settled (updateMessageSendState isStory sendStateReducer w receipt
                    (register w item)) = Ok tt) ->
      collection result = remove [receipt] this
      /\ ~ In receipt (collection result)).
Proof.
  intros Hmessages Hmatch. cbv zeta.
  pose proof (onReceipt_updates_the_story_copies isOutgoing isStory
                sendStateReducer w this receipt messages Hmessages Hmatch)
    as Hupdates.
  split; [|split].
  - intros item (Hin & Hlist & Hdeleted & Hstates).
    assert (In (updateMessageSendState isStory sendStateReducer w receipt
                  (register w item))
               (updates (onReceipt isOutgoing isStory sendStateReducer w
                           this receipt))) as Hhandled.
    { rewrite Hupdates.
      apply (in_map (fun item =>
                       updateMessageSendState isStory sendStateReducer w
                         receipt (register w item))).
      apply filter_In. split; [exact Hin|].
      apply isStoryCopy_true. auto. }
    assert (forall e,
              In e (effects (updateMessageSendState isStory sendStateReducer
                               w receipt (register w item))) ->
              In e (trace (onReceipt isOutgoing isStory sendStateReducer w
                             this receipt))) as Hissued.
    { intros e He.
      exact (onReceipt_issues_the_effects_of_its_updates _ _ _ _ _ _ _ _ _
               Hmessages Hmatch Hhandled He). }
    split; [exact Hhandled|]. split; [exact Hissued|]. split.
    + intros Hdrop. split; [|split].
      * intros Haddressed.
        assert (Message.sendStateByConversationId
                  (model (updateMessageSendState isStory sendStateReducer w
                            receipt (register w item)))
                = Some (getNewSendStateByConversationId sendStateReducer
                          (default ∅
                             (Message.sendStateByConversationId
                                (register w item))) receipt)) as Hmerged.
        { rewrite (update_applied _ _ _ _ _ Hdrop). cbv zeta. cbn [model].
          rewrite mergeReceipt_sendState. unfold addressesTopLevel.
          destruct Haddressed as [Hts|Hets].
          - rewrite Hts, Z.eqb_refl. reflexivity.
          - rewrite (bool_decide_eq_true_2 _ Hets), orb_true_r. reflexivity. }
        split; [exact Hmerged|].
        rewrite Hmerged. cbn [from_option id].
        apply getNew_lookup_source.
      * intros i edit Hi Hts.
        rewrite (update_editHistory _ _ _ _ _ Hdrop), lookup_map, Hi.
        cbn [option_map]. unfold updateEdit.
        rewrite Hts, Z.eqb_refl. reflexivity.
      * intros Hchanged. apply Hissued.
        apply update_persists. split; [exact Hchanged | reflexivity].
    + intros Hdrop. rewrite (update_dropped _ _ _ _ _ Hdrop).
      split; reflexivity.
  - intros update Hhandled. rewrite Hupdates in Hhandled.
    apply in_map_iff in Hhandled. destruct Hhandled as (copy & Heq & Hcopy).
    apply filter_In in Hcopy. destruct Hcopy as [Hin Hcopy].
    apply isStoryCopy_true in Hcopy.
    exists copy. split; [tauto | symmetry; exact Heq].
  - intros (item0 & Hin0 & Hcopy0) Hsettled.
    rewrite (onReceipt_stories _ _ _ _ _ _ _ Hmessages Hmatch). cbv zeta.
    destruct (List.filter _ messages) as [|m l] eqn:Hfilter.
    { exfalso.
      assert (In item0
                (List.filter (isStoryCopy (get sourceConversationId receipt))
                             messages)) as Hno.
      { apply filter_In. split; [exact Hin0|].
        apply isStoryCopy_true. exact Hcopy0. }
      rewrite Hfilter in Hno. destruct Hno. }
    rewrite Promise_all_resolves.
    + cbn [collection]. split; [reflexivity | apply remove_self].
    + apply List.Forall_forall. intros promise Hp.
      apply in_map_iff in Hp. destruct Hp as (u & <- & Hu).
      apply in_map_iff in Hu. destruct Hu as (item & <- & Hitem).
      rewrite <- Hfilter in Hitem. apply filter_In in Hitem.
      destruct Hitem as [Hin Hcopy]. apply isStoryCopy_true in Hcopy.
      apply Hsettled. tauto.
Qed.

Lemma receipt_is_merged_into_every_story_copy_not_dropped_witness :
  let w :=
    Fixtures.worldOf
      [Fixtures.storyCopy1; Fixtures.storyElsewhere; Fixtures.storyCopy2]
      [] [] in
  let result :=
    onReceipt Fixtures.isOutgoing Fixtures.isStory
      SpecLattice.sendStateReducer w [Fixtures.view] Fixtures.view in
  let copy' :=
    model (updateMessageSendState Fixtures.isStory
             SpecLattice.sendStateReducer w Fixtures.view
             Fixtures.storyCopy2) in
  getMessagesBySentAt w (get messageSentAt Fixtures.view)
  = Ok [Fixtures.storyCopy1; Fixtures.storyElsewhere; Fixtures.storyCopy2]
  /\ getTargetMessage Fixtures.isOutgoing Fixtures.isStory w
       (get sourceConversationId Fixtures.view)
       (get sourceServiceId Fixtures.view)
       [Fixtures.storyCopy1; Fixtures.storyElsewhere; Fixtures.storyCopy2]
     = Ok None
  /\ shouldDropReceipt Fixtures.isStory w Fixtures.view Fixtures.storyCopy2
     = false
  /\ default ∅ (Message.sendStateByConversationId copy')
       !! Fixtures.recipient
     = Some (mkSendState SendStatus.Viewed (Some 1300))
  /\ In (QueueUpdateMessage copy') (trace result)
  /\ ~ In Fixtures.view (collection result).
Proof.
  cbv zeta.
  destruct (receipt_is_merged_into_every_story_copy_not_dropped
              Fixtures.isOutgoing Fixtures.isStory
              SpecLattice.sendStateReducer
              (Fixtures.worldOf
                 [Fixtures.storyCopy1; Fixtures.storyElsewhere;
                  Fixtures.storyCopy2] [] [])
              [Fixtures.view] Fixtures.view
              [Fixtures.storyCopy1; Fixtures.storyElsewhere;
               Fixtures.storyCopy2] eq_refl eq_refl)
    as (Hcopies & _ & Hremoved).
  assert (In Fixtures.storyCopy2
             [Fixtures.storyCopy1; Fixtures.storyElsewhere;
              Fixtures.storyCopy2]
          /\ truthy (Message.storyDistributionListId Fixtures.storyCopy2)
             = true
          /\ default false (Message.deletedForEveryone Fixtures.storyCopy2)
             = false
          /\ exists sendStateByConversationId,
               Message.sendStateByConversationId Fixtures.storyCopy2
               = Some sendStateByConversationId
               /\ is_Some (sendStateByConversationId
                             !! get sourceConversationId Fixtures.view))
    as Hcopy2.
  { split; [right; right; left; reflexivity|].
    split; [reflexivity|]. split; [reflexivity|].
    exists (Fixtures.sentTo Fixtures.recipient). split; [reflexivity|].
    exists (mkSendState SendStatus.Sent (Some 1000)). reflexivity. }
  destruct (Hcopies Fixtures.storyCopy2 Hcopy2)
    as (_ & _ & Hmerged & _).
  destruct (Hmerged eq_refl) as (Htop & _ & Hpersisted).
  destruct (Htop (or_introl eq_refl)) as [_ Hentry].
  split; [reflexivity|]. split; [reflexivity|]. split; [reflexivity|].
  split; [exact Hentry|].
  split; [refine (Hpersisted _); vm_compute; discriminate|].
  apply Hremoved.
  - exists Fixtures.storyCopy2. exact Hcopy2.
  - intros item _.
    destruct (shouldDropReceipt Fixtures.isStory
                (Fixtures.worldOf
                   [Fixtures.storyCopy1; Fixtures.storyElsewhere;
                    Fixtures.storyCopy2] [] [])
                Fixtures.view
                (register
                   (Fixtures.worldOf
                      [Fixtures.storyCopy1; Fixtures.storyElsewhere;
                       Fixtures.storyCopy2] [] [])
                   item)) eqn:Hdrop.
    + rewrite (update_dropped _ _ _ _ _ Hdrop). reflexivity.
    + rewrite (update_applied _ _ _ _ _ Hdrop). reflexivity.
Defined.

(** C6 as stated fails: with view receipts for stories disabled, a view
    receipt for which the matcher finds no single target is handed to the
    two story copies that hold a send state for its source conversation,
    and is dropped for both: the copies stay as they were, nothing is
    persisted, and only the drops are logged. *)
Lemma dropped_receipt_is_not_applied_to_story_copies :
  let w :=
    Fixtures.withSettings true false
      (Fixtures.worldOf
         [Fixtures.storyCopy1; Fixtures.storyElsewhere; Fixtures.storyCopy2]
         [] []) in
  let result :=
    onReceipt Fixtures.isOutgoing Fixtures.isStory
      SpecLattice.sendStateReducer w [Fixtures.view] Fixtures.view in
  getMessagesBySentAt w (get messageSentAt Fixtures.view)
  = Ok [Fixtures.storyCopy1; Fixtures.storyElsewhere; Fixtures.storyCopy2]
  /\ getTargetMessage Fixtures.isOutgoing Fixtures.isStory w
       (get sourceConversationId Fixtures.view)
       (get sourceServiceId Fixtures.view)
       [Fixtures.storyCopy1; Fixtures.storyElsewhere; Fixtures.storyCopy2]
     = Ok None
  /\ truthy (Message.storyDistributionListId Fixtures.storyCopy1) = true
  /\ default false (Message.deletedForEveryone Fixtures.storyCopy1) = false
  /\ is_Some (default ∅ (Message.sendStateByConversationId Fixtures.storyCopy1)
                !! get sourceConversationId Fixtures.view)
  /\ List.map model (updates result)
     = [Fixtures.storyCopy1; Fixtures.storyCopy2]
  /\ trace result
     = [Log Info "MessageReceipts: Dropping a receipt";
        Log Info "MessageReceipts: Dropping a receipt"]
  /\ default ∅ (Message.sendStateByConversationId
                  (model (updateMessageSendState Fixtures.isStory
                            SpecLattice.sendStateReducer w Fixtures.view
                            Fixtures.storyCopy1)))
       !! Fixtures.recipient
     = Some (mkSendState SendStatus.Sent (Some 1000)).
Proof.
  cbv zeta. repeat split; try reflexivity.
  exists (mkSendState SendStatus.Sent (Some 1000)). reflexivity.
Qed.

(** C1, as the code has it.  An event leaves its buffer when its entry point
    found a target and handled it without an error, and then only that
    event leaves; an event for which no target is found stays in the buffer,
    where a later [forMessage] can still find it.  This holds for [onReceipt]
    (one target, or a set of story copies) and for [onSync]. *)
Theorem matched_event_leaves_buffer_unmatched_event_stays
    (isOutgoing isStory : MessageAttributesType -> bool)
    (sendStateReducer : Reducer) (w : World) :
  (forall (this : list MessageReceiptModel) (receipt : MessageReceiptModel)
          (messages : list MessageAttributesType),
     getMessagesBySentAt w (get messageSentAt receipt) = Ok messages ->
     let after :=
       collection (onReceipt isOutgoing isStory sendStateReducer w
                     this receipt) in
     let found :=
       getTargetMessage isOutgoing isStory w
         (get sourceConversationId receipt) (get sourceServiceId receipt)
         messages in
     let copies :=
       List.filter (isStoryCopy (get sourceConversationId receipt)) messages in
     let handled message :=
       settled (updateMessageSendState isStory sendStateReducer w
                  receipt message) = Ok tt in
     (forall message : MessageModel,
        found = Ok (Some message) -> handled message ->
        after = remove [receipt] this /\ ~ In receipt after)
     /\ (found = Ok None -> copies <> [] ->
         Forall (fun item => handled (register w item)) copies ->
         after = remove [receipt] this /\ ~ In receipt after)
     /\ (found = Ok None -> copies = [] -> after = this))
  /\ (forall (this : list ViewOnceOpenSyncModel) (sync : ViewOnceOpenSyncModel)
             (messages : list MessageAttributesType),
        getMessagesBySentAt w (ViewOnceOpenSync.timestamp sync) = Ok messages ->
        let after := fst (onSync w this sync) in
        (forall found : MessageAttributesType,
           List.find (isSyncTarget sync) messages = Some found ->
           markViewOnceMessageViewed w (register w found) = Ok tt ->
           after = remove [sync] this /\ ~ In sync after)
        /\ (List.find (isSyncTarget sync) messages = None -> after = this)).
Proof.
  split.
  - intros this receipt messages Hmessages. cbv zeta. split; [|split].
    + intros message Hfound Hhandled.
      rewrite (onReceipt_single _ _ _ _ _ _ _ _ Hmessages Hfound), Hhandled.
      cbn [collection]. split; [reflexivity | apply remove_self].
    + intros Hfound Hcopies Hhandled.
      rewrite (onReceipt_stories _ _ _ _ _ _ _ Hmessages Hfound). cbv zeta.
      destruct (List.filter _ messages) as [|m l] eqn:Hfilter; [congruence|].
      rewrite Promise_all_resolves.
      * cbn [collection]. split; [reflexivity | apply remove_self].
      * apply List.Forall_forall. intros promise Hin.
        apply in_map_iff in Hin. destruct Hin as (u & <- & Hin).
        apply in_map_iff in Hin. destruct Hin as (item & <- & Hin).
        rewrite List.Forall_forall in Hhandled. apply Hhandled. exact Hin.
    + intros Hfound Hcopies.
      rewrite (onReceipt_stories _ _ _ _ _ _ _ Hmessages Hfound). cbv zeta.
      rewrite Hcopies. reflexivity.
  - intros this sync messages Hmessages. cbv zeta. unfold onSync, register.
    rewrite Hmessages. split.
    + intros found Hfound Hviewed. rewrite Hfound, Hviewed. cbn [fst].
      split; [reflexivity | apply remove_self].
    + intros Hfound. rewrite Hfound. reflexivity.
Qed.

Lemma matched_event_leaves_buffer_unmatched_event_stays_witness :
  let w := Fixtures.worldOf [Fixtures.outgoing] [Fixtures.bob] [] in
  let after :=
    collection (onReceipt Fixtures.isOutgoing Fixtures.isStory
                  SpecLattice.sendStateReducer w
                  [Fixtures.delivery; Fixtures.other] Fixtures.delivery) in
  getMessagesBySentAt w (get messageSentAt Fixtures.delivery)
  = Ok [Fixtures.outgoing]
  /\ after = [Fixtures.other]
  /\ ~ In Fixtures.delivery after
  /\ fst (onSync w [Fixtures.opened] Fixtures.opened) = [Fixtures.opened].
Proof.
  cbv zeta.
  destruct (matched_event_leaves_buffer_unmatched_event_stays
              Fixtures.isOutgoing Fixtures.isStory
              SpecLattice.sendStateReducer
              (Fixtures.worldOf [Fixtures.outgoing] [Fixtures.bob] []))
    as [Hreceipt Hsync].
  destruct (Hreceipt [Fixtures.delivery; Fixtures.other] Fixtures.delivery
                     [Fixtures.outgoing] eq_refl) as (Hsingle & _ & _).
  destruct (Hsingle Fixtures.outgoing eq_refl eq_refl) as [Hafter Hgone].
  destruct (Hsync [Fixtures.opened] Fixtures.opened [Fixtures.outgoing]
                  eq_refl) as [_ Hkept].
  split; [reflexivity|]. split; [rewrite Hafter; reflexivity|].
  split; [exact Hgone|].
  apply Hkept. reflexivity.
Defined.

(** C1 as stated fails: a receipt and a view-once-open sync whose message is
    not stored yet are still in their buffers after [onReceipt] and [onSync]
    have run to completion. *)
Lemma unmatched_events_stay_buffered :
  let w := Fixtures.worldOf [] [] [] in
  In Fixtures.delivery
     (collection (onReceipt Fixtures.isOutgoing Fixtures.isStory
                    SpecLattice.sendStateReducer w
                    [Fixtures.delivery] Fixtures.delivery))
  /\ trace (onReceipt Fixtures.isOutgoing Fixtures.isStory
              SpecLattice.sendStateReducer w
              [Fixtures.delivery] Fixtures.delivery)
     = [Log Info "MessageReceipts: No message for receipt"]
  /\ In Fixtures.opened (fst (onSync w [Fixtures.opened] Fixtures.opened)).
Proof.
  cbv zeta. split; [|split].
  - vm_compute. left. reflexivity.
  - vm_compute. reflexivity.
  - vm_compute. left. reflexivity.
Qed.

(** ** [forMessage] and the drop policy *)

Lemma same_cid_same_model (this : list MessageReceiptModel)
    (a b : MessageReceiptModel) :
  List.NoDup (List.map cid this) ->
  In a this -> In b this -> cid a = cid b -> a = b.
Proof.
  induction this as [|x this IH]; cbn; intros Hnodup Ha Hb Hcid; [tauto|].
  apply List.NoDup_cons_iff in Hnodup. destruct Hnodup as [Hx Hnodup].
  destruct Ha as [->|Ha], Hb as [->|Hb].
  - reflexivity.
  - exfalso. apply Hx. rewrite Hcid. apply in_map. exact Hb.
  - exfalso. apply Hx. rewrite <- Hcid. apply in_map. exact Ha.
  - apply IH; assumption.
Qed.

(** Removing the models that a filter selected leaves the others. *)
Lemma remove_filtered (p : MessageReceiptModel -> bool)
    (this : list MessageReceiptModel) :
  List.NoDup (List.map cid this) ->
  remove (List.filter p this) this = List.filter (fun item => negb (p item)) this.
Proof.
  intros Hnodup. unfold remove. apply List.filter_ext_in.
  intros item Hitem. f_equal.
  destruct (p item) eqn:Hp.
  - apply existsb_exists. exists item. split.
    + apply filter_In. auto.
    + apply Nat.eqb_refl.
  - destruct (existsb _ _) eqn:Hex; [|reflexivity].
    apply existsb_exists in Hex. destruct Hex as (m & Hm & Hcid).
    apply filter_In in Hm. destruct Hm as [Hm Hpm].
    apply Nat.eqb_eq in Hcid.
    assert (m = item) as -> by (eapply same_cid_same_model; eassumption).
    congruence.
Qed.

Lemma filter_nothing {A : Type} (p : A -> bool) (l : list A) :
  List.filter p l = [] -> List.filter (fun x => negb (p x)) l = l.
Proof.
  induction l as [|x l IH]; cbn; [reflexivity|].
  destruct (p x); [discriminate|]. intros Hl. cbn. f_equal. auto.
Qed.

Section ForMessage.

Variable isOutgoing : MessageAttributesType -> bool.
Variable isStory : MessageAttributesType -> bool.
Variable getSourceServiceId : MessageAttributesType -> option string.
Variable getMessageSentTimestamp : MessageAttributesType -> Z.
Variable w : World.

Local Abbreviation lookup :=
  (forMessage isOutgoing isStory getSourceServiceId getMessageSentTimestamp w).

Lemma forMessage_guarded (this : list MessageReceiptModel)
    (message : MessageModel) :
  (isOutgoing message = false /\ isStory message = false)
  \/ getSourceServiceId message <> Some (getCheckedAci w) ->
  lookup this message = ([], this).
Proof.
  intros Hguard. unfold forMessage.
  destruct (negb (isOutgoing message) && negb (isStory message)) eqn:Hkind;
    [reflexivity|].
  destruct Hguard as [[Hout Hstory]|Hsource].
  - rewrite Hout, Hstory in Hkind. discriminate.
  - cbv zeta. unfold opt_str_eqb.
    rewrite bool_decide_eq_false_2 by congruence. reflexivity.
Qed.

Lemma forMessage_ours (this : list MessageReceiptModel)
    (message : MessageModel) :
  List.NoDup (List.map cid this) ->
  isOutgoing message = true \/ isStory message = true ->
  getSourceServiceId message = Some (getCheckedAci w) ->
  let matches receipt :=
    get messageSentAt receipt =? getMessageSentTimestamp message in
  lookup this message
  = (List.filter (fun receipt => negb (shouldDropReceipt isStory w receipt message))
                 (List.filter matches this),
     List.filter (fun receipt => negb (matches receipt)) this).
Proof.
  intros Hnodup Hkind Hsource. cbv zeta. unfold forMessage.
  replace (negb (isOutgoing message) && negb (isStory message)) with false
    by (destruct Hkind as [-> | ->]; cbn; rewrite ?andb_false_r; reflexivity).
  cbv zeta. unfold opt_str_eqb.
  rewrite bool_decide_eq_true_2 by congruence. cbn [negb].
  f_equal.
  destruct (List.filter _ this) as [|r l] eqn:Hfound.
  - cbn [length Nat.eqb]. symmetry. apply filter_nothing. exact Hfound.
  - cbn [length Nat.eqb]. rewrite <- Hfound.
    apply remove_filtered. exact Hnodup.
Qed.

Lemma forMessage_from_buffer (this : list MessageReceiptModel)
    (message : MessageModel) (receipt : MessageReceiptModel) :
  In receipt (fst (lookup this message)) -> In receipt this.
Proof.
  unfold forMessage.
  destruct (_ && _)%bool; [intros []|]. cbv zeta.
  destruct (negb _); [intros []|]. cbn [fst].
  intros Hin. apply filter_In in Hin. destruct Hin as [Hin _].
  apply filter_In in Hin. tauto.
Qed.

End ForMessage.

(** C7, as the code has it.  For a message that is outgoing or a story and
    whose source is our own account, [forMessage] removes from the buffer
    every receipt whose [messageSentAt] is the sent timestamp of the message
    and leaves the others in place; it returns exactly the removed receipts
    that the policy does not drop, so a receipt that the policy drops is
    removed and not returned; and no later query of the buffer returns a
    removed receipt again. *)
Theorem forMessage_takes_the_receipts_of_our_message
    (isOutgoing isStory : MessageAttributesType -> bool)
    (getSourceServiceId : MessageAttributesType -> option string)
    (getMessageSentTimestamp : MessageAttributesType -> Z) (w : World)
    (this : list MessageReceiptModel) (message : MessageModel) :
  List.NoDup (List.map cid this) ->
  isOutgoing message = true \/ isStory message = true ->
  getSourceServiceId message = Some (getCheckedAci w) ->
  let lookup :=
    forMessage isOutgoing isStory getSourceServiceId getMessageSentTimestamp
      w in
  let sentAt := getMessageSentTimestamp message in
  let found := fst (lookup this message) in
  let rest := snd (lookup this message) in
  rest
  = List.filter (fun receipt => negb (get messageSentAt receipt =? sentAt)) this
  /\ (forall receipt : MessageReceiptModel,
        In receipt rest
        <-> In receipt this /\ get messageSentAt receipt <> sentAt)
  /\ (forall receipt : MessageReceiptModel,
        In receipt found
        <-> In receipt this /\ get messageSentAt receipt = sentAt
            /\ shouldDropReceipt isStory w receipt message = false)
  /\ (forall (receipt : MessageReceiptModel) (later : MessageModel),
        In receipt this -> get messageSentAt receipt = sentAt ->
        ~ In receipt (fst (lookup rest later))).
Proof.
  intros Hnodup Hkind Hsource. cbv zeta.
  rewrite (forMessage_ours _ _ _ _ _ _ _ Hnodup Hkind Hsource).
  cbv zeta. cbn [fst snd].
  assert (forall receipt : MessageReceiptModel,
            In receipt
               (List.filter
                  (fun receipt =>
                     negb (get messageSentAt receipt
                           =? getMessageSentTimestamp message)) this)
            <-> In receipt this
                /\ get messageSentAt receipt <> getMessageSentTimestamp message)
    as Hrest.
  { intros receipt. rewrite filter_In, negb_true_iff, Z.eqb_neq. tauto. }
  split; [reflexivity|]. split; [exact Hrest|]. split.
  - intros receipt.
    rewrite !filter_In, negb_true_iff, Z.eqb_eq. tauto.
  - intros receipt later Hin Hsent Hagain.
    apply forMessage_from_buffer in Hagain.
    apply Hrest in Hagain. tauto.
Qed.

Lemma forMessage_takes_the_receipts_of_our_message_witness :
  let w :=
    Fixtures.withSettings false true
      (Fixtures.worldOf [Fixtures.outgoing] [Fixtures.bob] []) in
  let this := [Fixtures.delivery; Fixtures.other; Fixtures.read] in
  let lookup :=
    forMessage Fixtures.isOutgoing Fixtures.isStory
      Fixtures.getSourceServiceId Fixtures.getMessageSentTimestamp w in
  List.NoDup (List.map cid this)
  /\ snd (lookup this Fixtures.outgoing) = [Fixtures.other]
  /\ In Fixtures.delivery (fst (lookup this Fixtures.outgoing))
  /\ ~ In Fixtures.read (fst (lookup this Fixtures.outgoing))
  /\ ~ In Fixtures.delivery
       (fst (lookup (snd (lookup this Fixtures.outgoing)) Fixtures.outgoing)).
Proof.
  cbv zeta.
  assert (List.NoDup
            (List.map cid [Fixtures.delivery; Fixtures.other; Fixtures.read]))
    as Hnodup.
  { repeat constructor; cbn; intuition discriminate. }
  destruct (forMessage_takes_the_receipts_of_our_message
              Fixtures.isOutgoing Fixtures.isStory
              Fixtures.getSourceServiceId Fixtures.getMessageSentTimestamp
              (Fixtures.withSettings false true
                 (Fixtures.worldOf [Fixtures.outgoing] [Fixtures.bob] []))
              [Fixtures.delivery; Fixtures.other; Fixtures.read]
              Fixtures.outgoing Hnodup (or_introl eq_refl) eq_refl)
    as (Hrest & _ & Hfound & Honce).
  split; [exact Hnodup|]. split; [rewrite Hrest; reflexivity|].
  split; [|split].
  - apply Hfound. split; [left; reflexivity|]. split; reflexivity.
  - intros Hin. apply Hfound in Hin. destruct Hin as (_ & _ & Hkept).
    vm_compute in Hkept. discriminate.
  - apply Honce; [left|]; reflexivity.
Defined.

(** C7 as stated fails: queried with an incoming message sent at the same
    timestamp, [forMessage] returns nothing and leaves the receipt in the
    buffer. *)
Lemma forMessage_ignores_incoming_message :
  let w := Fixtures.worldOf [Fixtures.incoming] [Fixtures.bob] [] in
  let lookup :=
    forMessage Fixtures.isOutgoing Fixtures.isStory
      Fixtures.getSourceServiceId Fixtures.getMessageSentTimestamp w in
  get messageSentAt Fixtures.delivery
  = Fixtures.getMessageSentTimestamp Fixtures.incoming
  /\ lookup [Fixtures.delivery] Fixtures.incoming = ([], [Fixtures.delivery])
  /\ In Fixtures.delivery (snd (lookup [Fixtures.delivery] Fixtures.incoming)).
Proof.
  cbv zeta. split; [reflexivity|]. split; [reflexivity|].
  left. reflexivity.
Qed.

(** C8. A delivery receipt is never dropped; a read receipt is dropped if
    and only if the read-receipt setting is off; a view receipt for a story
    is dropped if and only if view receipts for stories are disabled. *)
Theorem drop_policy_by_receipt_type
    (isStory : MessageAttributesType -> bool) (w : World)
    (receipt : MessageReceiptModel) (message : MessageModel) :
  (get type receipt = MessageReceiptType.Delivery ->
   shouldDropReceipt isStory w receipt message = false)
  /\ (get type receipt = MessageReceiptType.Read ->
      (shouldDropReceipt isStory w receipt message = true
       <-> read_receipt_setting w = false))
  /\ (get type receipt = MessageReceiptType.View ->
      isStory message = true ->
      (shouldDropReceipt isStory w receipt message = true
       <-> getStoryViewReceiptsEnabled w = false)).
Proof.
  unfold shouldDropReceipt. split; [|split].
  - intros ->. reflexivity.
  - intros ->. apply negb_true_iff.
  - intros -> ->. apply negb_true_iff.
Qed.

Lemma drop_policy_by_receipt_type_witness :
  let stored := Fixtures.worldOf [Fixtures.storyCopy1] [Fixtures.bob] [] in
  let drops readReceipts storyViewReceipts receipt :=
    shouldDropReceipt Fixtures.isStory
      (Fixtures.withSettings readReceipts storyViewReceipts stored)
      receipt Fixtures.storyCopy1 in
  drops false false Fixtures.delivery = false
  /\ drops false true Fixtures.read = true
  /\ drops true false Fixtures.view = true
  /\ drops false true Fixtures.view = false.
Proof.
  cbv zeta.
  split; [|split; [|split]].
  - apply (proj1 (drop_policy_by_receipt_type Fixtures.isStory
                    (Fixtures.withSettings false false
                       (Fixtures.worldOf [Fixtures.storyCopy1] [Fixtures.bob] []))
                    Fixtures.delivery Fixtures.storyCopy1)).
    reflexivity.
  - apply (proj1 (proj2 (drop_policy_by_receipt_type Fixtures.isStory
                           (Fixtures.withSettings false true
                              (Fixtures.worldOf [Fixtures.storyCopy1]
                                 [Fixtures.bob] []))
                           Fixtures.read Fixtures.storyCopy1))).
    + reflexivity.
    + reflexivity.
  - apply (proj2 (proj2 (drop_policy_by_receipt_type Fixtures.isStory
                           (Fixtures.withSettings true false
                              (Fixtures.worldOf [Fixtures.storyCopy1]
                                 [Fixtures.bob] []))
                           Fixtures.view Fixtures.storyCopy1))).
    + reflexivity.
    + reflexivity.
    + reflexivity.
  - reflexivity.
Defined.

(** ** Message request responses *)

Lemma opt_str_eqb_true (a b : option string) : opt_str_eqb a b = true <-> a = b.
Proof. unfold opt_str_eqb. apply bool_decide_eq_true. Qed.






(** * Further properties of the code *)

(** ** The cleanup request of [updateMessageSendState] *)

Lemma truthy_string_true (s : string) :
  truthy_string s = true <-> s <> EmptyString.
Proof. destruct s; cbn; split; congruence. Qed.

Lemma truthy_number_true (n : Z) : truthy_number n = true <-> n <> 0.
Proof. unfold truthy_number. rewrite negb_true_iff. apply Z.eqb_neq. Qed.

(** The condition under which the last block of [updateMessageSendState]
    looks for the recipient. *)
Lemma deleteSentProto_wanted (w : World) (receipt : MessageReceiptModel)
    (m : MessageModel) :
  (bool_decide (get type receipt = MessageReceiptType.Delivery)
   && wasDeliveredWithSealedSender w (get sourceConversationId receipt) m
   && get wasSentEncrypted receipt
   || bool_decide (get type receipt = MessageReceiptType.Read)) = true
  <-> get type receipt = MessageReceiptType.Read
      \/ (get type receipt = MessageReceiptType.Delivery
          /\ wasDeliveredWithSealedSender w (get sourceConversationId receipt) m
             = true
          /\ get wasSentEncrypted receipt = true).
Proof.
  rewrite orb_true_iff, !andb_true_iff, !bool_decide_eq_true. tauto.
Qed.

Lemma deleteSentProto_request (w : World) (receipt : MessageReceiptModel)
    (m : MessageModel) (item : DeleteSentProtoRecipientOptionsType) :
  In (BatcherAdd item) (fst (deleteSentProto w receipt m))
  <-> (get type receipt = MessageReceiptType.Read
       \/ (get type receipt = MessageReceiptType.Delivery
           /\ wasDeliveredWithSealedSender w
                (get sourceConversationId receipt) m = true
           /\ get wasSentEncrypted receipt = true))
      /\ exists recipient serviceId,
           ConversationController_get w (get sourceConversationId receipt)
           = Some recipient
           /\ Conversation.serviceId recipient = Some serviceId
           /\ serviceId <> EmptyString
           /\ get sourceDevice receipt <> 0
           /\ item = mkDeleteSentProto (get messageSentAt receipt) serviceId
                       (get sourceDevice receipt).
Proof.
  rewrite <- deleteSentProto_wanted. unfold deleteSentProto. cbv zeta.
  destruct (_ || _)%bool; cbn [fst]; [|cbn [In]; intuition discriminate].
  destruct (ConversationController_get w _) as [recipient|]; cbn [mbind option_bind].
  - destruct (Conversation.serviceId recipient) as [serviceId|] eqn:Hid.
    + destruct (truthy_string serviceId) eqn:Hs;
        destruct (truthy_number (get sourceDevice receipt)) eqn:Hd;
        cbn [andb fst].
      * apply truthy_string_true in Hs. apply truthy_number_true in Hd.
        split.
        { intros [Heq|Hin].
          - inversion Heq; subst. split; [reflexivity|].
            exists recipient, serviceId. auto.
          - destruct (SignalCI w); cbn [In] in Hin;
              [destruct Hin as [Hin|[]] | destruct Hin]; discriminate. }
        { intros [_ (r' & s' & Hr & Hs' & _ & _ & ->)].
          left. congruence. }
      * split; [intros [Hin|[]]; discriminate|].
        intros [_ (r' & s' & Hr & Hs' & _ & Hd' & _)].
        apply truthy_number_true in Hd'. congruence.
      * split; [intros [Hin|[]]; discriminate|].
        intros [_ (r' & s' & Hr & Hs' & Hne & _)].
        apply truthy_string_true in Hne. congruence.
      * split; [intros [Hin|[]]; discriminate|].
        intros [_ (r' & s' & Hr & Hs' & Hne & _)].
        apply truthy_string_true in Hne. congruence.
    + cbn [fst]. split; [intros [Hin|[]]; discriminate|].
      intros [_ (r' & s' & Hr & Hs' & _)]. congruence.
  - cbn [fst]. split; [intros [Hin|[]]; discriminate|].
    intros [_ (r' & s' & Hr & _)]. congruence.
Qed.

Lemma deleteSentProto_rejects (w : World) (receipt : MessageReceiptModel)
    (m : MessageModel) (e : string) :
  snd (deleteSentProto w receipt m) = Threw e ->
  exists item, In (BatcherAdd item) (fst (deleteSentProto w receipt m))
               /\ (deleteSentProtoBatcher_add w item = Threw e
                   \/ (SignalCI w = true
                       /\ deleteSentProtoBatcher_flushAndWait w = Threw e)).
Proof.
  unfold deleteSentProto. cbv zeta.
  destruct (_ || _)%bool; cbn [snd]; [|discriminate].
  destruct (_ ≫= _) as [serviceId|]; [|discriminate].
  destruct (_ && _)%bool; cbn [fst snd]; [|discriminate].
  intros Hthrew. eexists. split; [left; reflexivity|].
  cbn [Promise_all] in Hthrew.
  destruct (deleteSentProtoBatcher_add w _) as [[]|e1]; [|left; congruence].
  destruct (SignalCI w); [|discriminate].
  destruct (deleteSentProtoBatcher_flushAndWait w) as [[]|e2];
    [discriminate|].
  right. split; [reflexivity | congruence].
Qed.

Lemma sealed_sender_after_merge (sendStateReducer : Reducer) (w : World)
    (receipt : MessageReceiptModel)
    (m : MessageModel) (conversationId : string) :
  wasDeliveredWithSealedSender w conversationId
    (fst (mergeReceipt sendStateReducer receipt m))
  = wasDeliveredWithSealedSender w conversationId m.
Proof.
  unfold wasDeliveredWithSealedSender.
  destruct (mergeReceipt_rest sendStateReducer receipt m)
    as (_ & _ & _ & _ & _ & _ & _ & -> & _).
  reflexivity.
Qed.

Lemma persistAndNotify_effects (w : World) (m : MessageModel) (e : Effect) :
  In e (persistAndNotify w m) ->
  match e with
  | QueueUpdateMessage _ | DebouncedUpdateLastMessage _ => True
  | _ => False
  end.
Proof.
  unfold persistAndNotify. intros [<-|Hin]; [exact I|].
  destruct (ConversationController_get w _) as [c|]; [|destruct Hin].
  destruct (Conversation.debouncedUpdateLastMessage c); [|destruct Hin].
  destruct Hin as [<-|[]]. exact I.
Qed.

Lemma update_model (isStory : MessageAttributesType -> bool)
    (sendStateReducer : Reducer) (w : World)
    (receipt : MessageReceiptModel) (m : MessageModel) :
  model (updateMessageSendState isStory sendStateReducer w receipt m)
  = if shouldDropReceipt isStory w receipt m then m
    else fst (mergeReceipt sendStateReducer receipt m).
Proof.
  destruct (shouldDropReceipt isStory w receipt m) eqn:Hdrop.
  - rewrite (update_dropped _ _ _ _ _ Hdrop). reflexivity.
  - rewrite (update_applied _ _ _ _ _ Hdrop). reflexivity.
Qed.

(** X1. [updateMessageSendState] asks the batcher to forget the sent proto
    exactly when the policy does not drop the receipt, the receipt is a read
    receipt or a delivery receipt that was sent encrypted for a message
    delivered to the source conversation with sealed sender, the
    conversation controller knows the source conversation with a non-empty
    service id, and the source device is not 0; the request carries the
    receipt's [messageSentAt], that service id and that device. *)
Theorem cleanup_is_requested_exactly_for_read_and_sealed_delivery
    (isStory : MessageAttributesType -> bool) (sendStateReducer : Reducer)
    (w : World) (receipt : MessageReceiptModel) (message : MessageModel)
    (item : DeleteSentProtoRecipientOptionsType) :
  In (BatcherAdd item)
     (effects (updateMessageSendState isStory sendStateReducer w
                 receipt message))
  <-> shouldDropReceipt isStory w receipt message = false
      /\ (get type receipt = MessageReceiptType.Read
          \/ (get type receipt = MessageReceiptType.Delivery
              /\ wasDeliveredWithSealedSender w
                   (get sourceConversationId receipt) message = true
              /\ get wasSentEncrypted receipt = true))
      /\ exists (recipient : ConversationModel) (serviceId : string),
           ConversationController_get w (get sourceConversationId receipt)
           = Some recipient
           /\ Conversation.serviceId recipient = Some serviceId
           /\ serviceId <> EmptyString
           /\ get sourceDevice receipt <> 0
           /\ item = mkDeleteSentProto (get messageSentAt receipt) serviceId
                       (get sourceDevice receipt).
Proof.
  destruct (shouldDropReceipt isStory w receipt message) eqn:Hdrop.
  - rewrite (update_dropped _ _ _ _ _ Hdrop). cbn [effects In].
    split; [intros [Hlog|[]]; discriminate | intros [Hno _]; discriminate].
  - rewrite (update_applied _ _ _ _ _ Hdrop). cbv zeta. cbn [effects].
    rewrite in_app_iff, deleteSentProto_request, sealed_sender_after_merge.
    split.
    + intros [Hin|Hin]; [|tauto].
      exfalso.
      destruct (snd (mergeReceipt sendStateReducer receipt message));
        [|destruct Hin].
      exact (persistAndNotify_effects _ _ _ Hin).
    + intros (_ & Hwanted & Hrecipient). right. tauto.
Qed.

(** X2. The promise of [updateMessageSendState] rejects only with a
    rejection of the batcher, after the cleanup was requested: a receipt
    that the policy drops and a view receipt always resolve. *)
Theorem update_rejects_only_with_the_batcher
    (isStory : MessageAttributesType -> bool) (sendStateReducer : Reducer)
    (w : World) (receipt : MessageReceiptModel) (message : MessageModel) :
  let update :=
    updateMessageSendState isStory sendStateReducer w receipt message in
  (forall e : string,
     settled update = Threw e ->
     exists item : DeleteSentProtoRecipientOptionsType,
       In (BatcherAdd item) (effects update)
       /\ (deleteSentProtoBatcher_add w item = Threw e
           \/ (SignalCI w = true
               /\ deleteSentProtoBatcher_flushAndWait w = Threw e)))
  /\ (shouldDropReceipt isStory w receipt message = true
      \/ get type receipt = MessageReceiptType.View ->
      settled update = Ok tt).
Proof.
  cbv zeta.
  destruct (shouldDropReceipt isStory w receipt message) eqn:Hdrop.
  - rewrite (update_dropped _ _ _ _ _ Hdrop). cbn [settled effects].
    split; [discriminate | reflexivity].
  - rewrite (update_applied _ _ _ _ _ Hdrop). cbv zeta. cbn [settled effects].
    split.
    + intros e Hthrew.
      destruct (deleteSentProto_rejects _ _ _ _ Hthrew) as (item & Hin & Hwhy).
      exists item. split; [|exact Hwhy].
      apply in_app_iff. right. exact Hin.
    + intros [Hno|Hview]; [discriminate|].
      unfold deleteSentProto. cbv zeta. rewrite Hview. reflexivity.
Qed.

Lemma update_rejects_only_with_the_batcher_witness :
  let failing :=
    Fixtures.withFailingBatcher
      (Fixtures.worldOf [Fixtures.outgoing] [Fixtures.bob] []) in
  let update :=
    updateMessageSendState Fixtures.isStory SpecLattice.sendStateReducer
      failing Fixtures.read Fixtures.outgoing in
  settled update = Threw "deleteSentProtoRecipient failed"
  /\ (exists item, In (BatcherAdd item) (effects update))
  /\ settled (updateMessageSendState Fixtures.isStory
                SpecLattice.sendStateReducer failing
                Fixtures.view Fixtures.storyCopy1)
     = Ok tt.
Proof.
  cbv zeta. split; [reflexivity|]. split.
  - destruct (proj1 (update_rejects_only_with_the_batcher Fixtures.isStory
                       SpecLattice.sendStateReducer
                       (Fixtures.withFailingBatcher
                          (Fixtures.worldOf [Fixtures.outgoing]
                             [Fixtures.bob] []))
                       Fixtures.read Fixtures.outgoing)
                    "deleteSentProtoRecipient failed" eq_refl)
      as (item & Hin & _).
    exists item. exact Hin.
  - apply (proj2 (update_rejects_only_with_the_batcher Fixtures.isStory
                    SpecLattice.sendStateReducer
                    (Fixtures.withFailingBatcher
                       (Fixtures.worldOf [Fixtures.outgoing]
                          [Fixtures.bob] []))
                    Fixtures.view Fixtures.storyCopy1)).
    right. reflexivity.
Defined.

Lemma updateEdit_timestamp (sendStateReducer : Reducer)
    (receipt : MessageReceiptModel) (edit : EditHistoryType.t) :
  EditHistoryType.timestamp (updateEdit sendStateReducer receipt edit)
  = EditHistoryType.timestamp edit.
Proof. unfold updateEdit. destruct (negb _); reflexivity. Qed.

(** X3. [updateMessageSendState] changes nothing of a message but its
    send-state mappings: the id, the conversation, the timestamps, the
    sources, the sealed-sender deliveries and the story fields stay, a
    message without edit history gets none, and the edit history keeps its
    revisions' timestamps in their order. *)
Theorem update_changes_only_send_states
    (isStory : MessageAttributesType -> bool) (sendStateReducer : Reducer)
    (w : World) (receipt : MessageReceiptModel) (message : MessageModel) :
  let message' :=
    model (updateMessageSendState isStory sendStateReducer w receipt message) in
  Message.id message' = Message.id message
  /\ Message.conversationId message' = Message.conversationId message
  /\ Message.timestamp message' = Message.timestamp message
  /\ Message.sent_at message' = Message.sent_at message
  /\ Message.source message' = Message.source message
  /\ Message.sourceServiceId message' = Message.sourceServiceId message
  /\ Message.editMessageTimestamp message'
     = Message.editMessageTimestamp message
  /\ Message.unidentifiedDeliveries message'
     = Message.unidentifiedDeliveries message
  /\ Message.storyDistributionListId message'
     = Message.storyDistributionListId message
  /\ Message.deletedForEveryone message' = Message.deletedForEveryone message
  /\ (Message.editHistory message' = None
      <-> Message.editHistory message = None)
  /\ List.map EditHistoryType.timestamp
       (default [] (Message.editHistory message'))
     = List.map EditHistoryType.timestamp
         (default [] (Message.editHistory message)).
Proof.
  cbv zeta. rewrite update_model.
  destruct (shouldDropReceipt isStory w receipt message);
    [repeat split; auto|].
  destruct (mergeReceipt_rest sendStateReducer receipt message)
    as (? & ? & ? & ? & ? & ? & ? & ? & ? & ?).
  repeat (split; [assumption|]).
  rewrite mergeReceipt_editHistory.
  destruct (Message.editHistory message) as [history|]; cbn.
  - split; [split; discriminate|].
    rewrite List.map_map. apply List.map_ext.
    intros edit. apply updateEdit_timestamp.
  - split; [tauto | reflexivity].
Qed.

(** X4. A receipt touches the send state of its source conversation only:
    in the top-level mapping and in the mapping of every revision, the
    entry of any other conversation is after [updateMessageSendState] what
    it was before. *)
Theorem update_leaves_other_recipients_alone
    (isStory : MessageAttributesType -> bool) (sendStateReducer : Reducer)
    (w : World) (receipt : MessageReceiptModel) (message : MessageModel)
    (conversationId : string) :
  conversationId <> get sourceConversationId receipt ->
  let message' :=
    model (updateMessageSendState isStory sendStateReducer w receipt message) in
  default ∅ (Message.sendStateByConversationId message') !! conversationId
  = default ∅ (Message.sendStateByConversationId message) !! conversationId
  /\ (forall (i : nat) (edit : EditHistoryType.t),
        default [] (Message.editHistory message) !! i = Some edit ->
        exists edit' : EditHistoryType.t,
          default [] (Message.editHistory message') !! i = Some edit'
          /\ default ∅ (EditHistoryType.sendStateByConversationId edit')
               !! conversationId
             = default ∅ (EditHistoryType.sendStateByConversationId edit)
                 !! conversationId).
Proof.
  intros Hother. cbv zeta. rewrite update_model.
  destruct (shouldDropReceipt isStory w receipt message).
  - split; [reflexivity|]. intros i edit Hi. exists edit. auto.
  - rewrite mergeReceipt_sendState, mergeReceipt_editHistory. split.
    + destruct (addressesTopLevel receipt message); [|reflexivity].
      cbn [from_option id]. apply getNew_lookup_other. exact Hother.
    + intros i edit Hi.
      destruct (Message.editHistory message) as [history|];
        cbn [option_map from_option id] in *; [|discriminate].
      exists (updateEdit sendStateReducer receipt edit).
      rewrite lookup_map, Hi. split; [reflexivity|].
      unfold updateEdit. destruct (negb _); [reflexivity|].
      cbn [EditHistoryType.sendStateByConversationId from_option id].
      apply getNew_lookup_other. exact Hother.
Qed.

Lemma update_leaves_other_recipients_alone_witness :
  let states : SendStateByConversationId :=
    <[ "conversation-carol" := mkSendState SendStatus.Sent (Some 1000) ]>
      (Fixtures.sentTo Fixtures.recipient) in
  let message :=
    Fixtures.messageIn "outgoing-1" Fixtures.recipient (Some states) None
                       None in
  let message' :=
    model (updateMessageSendState Fixtures.isStory
             SpecLattice.sendStateReducer
             (Fixtures.worldOf [message] [Fixtures.bob] [])
             Fixtures.read message) in
  default ∅ (Message.sendStateByConversationId message')
    !! "conversation-carol"
  = Some (mkSendState SendStatus.Sent (Some 1000))
  /\ default ∅ (Message.sendStateByConversationId message')
       !! Fixtures.recipient
     = Some (mkSendState SendStatus.Read (Some 1200)).
Proof.
  cbv zeta. split.
  - rewrite (proj1 (update_leaves_other_recipients_alone Fixtures.isStory
                      SpecLattice.sendStateReducer _ Fixtures.read _
                      "conversation-carol" ltac:(discriminate))).
    vm_compute. reflexivity.
  - vm_compute. reflexivity.
Defined.

(** X5. A receipt whose [messageSentAt] is neither the timestamp nor the
    edit timestamp of the message nor the timestamp of a revision leaves the
    message as it is; nothing is persisted and nobody is notified. *)
Theorem receipt_for_no_revision_changes_nothing
    (isStory : MessageAttributesType -> bool) (sendStateReducer : Reducer)
    (w : World) (receipt : MessageReceiptModel) (message : MessageModel) :
  get messageSentAt receipt <> Message.timestamp message ->
  Some (get messageSentAt receipt) <> Message.editMessageTimestamp message ->
  Forall (fun edit =>
            EditHistoryType.timestamp edit <> get messageSentAt receipt)
         (default [] (Message.editHistory message)) ->
  let update :=
    updateMessageSendState isStory sendStateReducer w receipt message in
  model update = message
  /\ (forall attributes, ~ In (QueueUpdateMessage attributes) (effects update))
  /\ (forall conversationId,
        ~ In (DebouncedUpdateLastMessage conversationId) (effects update)).
Proof.
  intros Hts Hets Hhistory. cbv zeta.
  assert (model (updateMessageSendState isStory sendStateReducer w
                   receipt message) = message) as Hsame.
  { rewrite update_model.
    destruct (shouldDropReceipt isStory w receipt message); [reflexivity|].
    rewrite mergeReceipt_unfold. cbv zeta. cbn [fst].
    assert (List.map (updateEdit sendStateReducer receipt)
              (default [] (Message.editHistory message))
            = default [] (Message.editHistory message)) as ->.
    { induction Hhistory as [|edit l Hedit _ IH]; [reflexivity|].
      cbn [List.map]. rewrite IH. f_equal.
      unfold updateEdit.
      destruct (Z.eqb_spec (get messageSentAt receipt)
                           (EditHistoryType.timestamp edit));
        [congruence | reflexivity]. }
    unfold isEqual.
    rewrite (bool_decide_eq_true_2
               (default [] (Message.editHistory message)
                = default [] (Message.editHistory message)) eq_refl).
    cbn [negb id].
    unfold addressesTopLevel.
    destruct (Z.eqb_spec (get messageSentAt receipt)
                         (Message.timestamp message)); [contradiction|].
    rewrite bool_decide_eq_false_2 by assumption. reflexivity. }
  split; [exact Hsame|]. split.
  - intros attributes Hin. apply update_persists in Hin. tauto.
  - intros conversationId Hin. apply update_notifies in Hin. tauto.
Qed.

Lemma receipt_for_no_revision_changes_nothing_witness :
  model (updateMessageSendState Fixtures.isStory SpecLattice.sendStateReducer
           (Fixtures.worldOf [Fixtures.outgoing] [Fixtures.bob] [])
           Fixtures.other Fixtures.edited)
  = Fixtures.edited.
Proof.
  apply (receipt_for_no_revision_changes_nothing Fixtures.isStory
           SpecLattice.sendStateReducer
           (Fixtures.worldOf [Fixtures.outgoing] [Fixtures.bob] [])
           Fixtures.other Fixtures.edited).
  - vm_compute. discriminate.
  - vm_compute. discriminate.
  - repeat constructor; vm_compute; discriminate.
Defined.

(** ** Failures and the buffers *)

Lemma deleteSentProto_logs_no_error (w : World) (receipt : MessageReceiptModel)
    (m : MessageModel) (text : string) :
  ~ In (Log Error text) (fst (deleteSentProto w receipt m)).
Proof.
  unfold deleteSentProto. cbv zeta.
  destruct (_ || _)%bool; cbn [fst]; [|intros []].
  destruct (_ ≫= _) as [serviceId|]; cbn [fst].
  - destruct (_ && _)%bool; [destruct (SignalCI w)|]; cbn [fst In];
      intuition discriminate.
  - cbn [In]. intuition discriminate.
Qed.

Lemma update_logs_no_error (isStory : MessageAttributesType -> bool)
    (sendStateReducer : Reducer) (w : World) (receipt : MessageReceiptModel)
    (m : MessageModel) (text : string) :
  ~ In (Log Error text)
       (effects (updateMessageSendState isStory sendStateReducer w receipt m)).
Proof.
  destruct (shouldDropReceipt isStory w receipt m) eqn:Hdrop.
  - rewrite (update_dropped _ _ _ _ _ Hdrop). cbn [effects In].
    intuition discriminate.
  - rewrite (update_applied _ _ _ _ _ Hdrop). cbv zeta. cbn [effects].
    rewrite in_app_iff. intros [Hin|Hin].
    + destruct (snd (mergeReceipt sendStateReducer receipt m));
        [|destruct Hin].
      exact (persistAndNotify_effects _ _ _ Hin).
    + exact (deleteSentProto_logs_no_error _ _ _ _ Hin).
Qed.

Lemma Promise_all_rejected (promises : list (Outcome unit)) (e : string) :
  Promise_all promises = Threw e -> In (Threw e) promises.
Proof.
  induction promises as [|[u|e'] l IH]; cbn; [discriminate| |].
  - intros Hl. right. auto.
  - intros Hl. left. congruence.
Qed.

Lemma Promise_all_resolved (promises : list (Outcome unit)) (u : unit)
    (promise : Outcome unit) :
  Promise_all promises = Ok u -> In promise promises -> promise = Ok tt.
Proof.
  induction promises as [|[[]|e'] l IH]; cbn; [tauto| |discriminate].
  intros Hl [<-|Hin]; auto.
Qed.

Section Failures.

Variable isOutgoing : MessageAttributesType -> bool.
Variable isStory : MessageAttributesType -> bool.
Variable sendStateReducer : Reducer.
Variable w : World.

Local Abbreviation reconcile :=
  (onReceipt isOutgoing isStory sendStateReducer w).

Lemma onReceipt_collection (this : list MessageReceiptModel)
    (receipt : MessageReceiptModel) :
  collection (reconcile this receipt) = this
  \/ collection (reconcile this receipt) = remove [receipt] this.
Proof.
  unfold onReceipt. cbv zeta.
  destruct (getMessagesBySentAt w _) as [messages|]; [|left; reflexivity].
  destruct (getTargetMessage _ _ _ _ _ _) as [[message|]|];
    [| |left; reflexivity].
  - destruct (settled _); [right|left]; reflexivity.
  - destruct (Nat.eqb _ 0); [left; reflexivity|].
    destruct (Promise_all _); [right|left]; reflexivity.
Qed.

(** X6. [onReceipt] logs an error exactly when the storage cannot list the
    messages, the matcher cannot list the groups, or the promise of one of
    its calls of [updateMessageSendState] rejects; and after an error the
    collection is what it was: the receipt is not removed. *)
Theorem onReceipt_error_keeps_the_receipt
    (this : list MessageReceiptModel)
    (receipt : MessageReceiptModel) :
  let result := reconcile this receipt in
  let failed :=
    In (Log Error "MessageReceipts.onReceipt error:") (trace result) in
  (failed
   <-> (exists e, getMessagesBySentAt w (get messageSentAt receipt) = Threw e)
       \/ (exists messages e,
             getMessagesBySentAt w (get messageSentAt receipt) = Ok messages
             /\ getTargetMessage isOutgoing isStory w
                  (get sourceConversationId receipt)
                  (get sourceServiceId receipt) messages = Threw e)
       \/ (exists update e, In update (updates result)
                            /\ settled update = Threw e))
  /\ (failed -> collection result = this).
Proof.
  cbv zeta. unfold onReceipt. cbv zeta.
  destruct (getMessagesBySentAt w _) as [messages|e0] eqn:Hmessages.
  2:{ cbn [trace collection updates]. split; [|reflexivity].
      split; [intros _; left; eauto | intros _; left; reflexivity]. }
  destruct (getTargetMessage _ _ _ _ _ _) as [[message|]|e1] eqn:Hmatch.
  3:{ cbn [trace collection updates]. split; [|reflexivity].
      split; [intros _; right; left; eauto | intros _; left; reflexivity]. }
  - destruct (settled _) as [u|e2] eqn:Hsettled;
      cbn [trace collection updates].
    + split.
      * split.
        { intros Hin. exfalso. exact (update_logs_no_error _ _ _ _ _ _ Hin). }
        { intros [[e He]|[(ms & e & Hms & He)|(up & e & [<-|[]] & He)]];
            congruence. }
      * intros Hin. exfalso. exact (update_logs_no_error _ _ _ _ _ _ Hin).
    + split; [|reflexivity]. split.
      * intros _. right. right. eexists. exists e2.
        split; [left; reflexivity | exact Hsettled].
      * intros _. apply in_app_iff. right. left. reflexivity.
  - destruct (List.filter _ messages) as [|m l] eqn:Hcopies;
      cbn [length Nat.eqb trace collection updates].
    + split; [|reflexivity]. split.
      * intros [Hin|[]]. discriminate.
      * intros [[e He]|[(ms & e & Hms & He)|(up & e & [] & _)]]; congruence.
    + destruct (Promise_all _) as [u|e2] eqn:Hall;
        cbn [trace collection updates].
      * assert (~ In (Log Error "MessageReceipts.onReceipt error:")
                  (List.concat
                     (List.map effects
                        (List.map
                           (fun msg =>
                              updateMessageSendState isStory sendStateReducer
                                w receipt (register w msg)) (m :: l)))))
          as Hclean.
        { intros Hin. apply in_concat in Hin.
          destruct Hin as (fx & Hfx & Hin).
          apply in_map_iff in Hfx. destruct Hfx as (up & <- & Hup).
          apply in_map_iff in Hup. destruct Hup as (msg & <- & _).
          exact (update_logs_no_error _ _ _ _ _ _ Hin). }
        split; [|intros Hin; contradiction].
        split; [intros Hin; contradiction|].
        intros [[e He]|[(ms & e & Hms & He)|(up & e & Hup & He)]];
          [congruence|congruence|].
        exfalso.
        assert (settled up = Ok tt) as Hok.
        { apply (Promise_all_resolved _ u _ Hall).
          apply in_map. exact Hup. }
        congruence.
      * split; [|reflexivity]. split.
        { intros _. right. right.
          apply Promise_all_rejected in Hall.
          apply in_map_iff in Hall. destruct Hall as (up & He & Hup).
          exists up, e2. auto. }
        { intros _. apply in_app_iff. right. left. reflexivity. }
Qed.

End Failures.

Lemma onReceipt_error_keeps_the_receipt_witness :
  let failing :=
    Fixtures.withFailingBatcher
      (Fixtures.worldOf [Fixtures.outgoing] [Fixtures.bob] []) in
  let result :=
    onReceipt Fixtures.isOutgoing Fixtures.isStory
      SpecLattice.sendStateReducer failing
      [Fixtures.read; Fixtures.other] Fixtures.read in
  In (Log Error "MessageReceipts.onReceipt error:") (trace result)
  /\ collection result = [Fixtures.read; Fixtures.other].
Proof.
  cbv zeta.
  assert (In (Log Error "MessageReceipts.onReceipt error:")
            (trace (onReceipt Fixtures.isOutgoing Fixtures.isStory
                      SpecLattice.sendStateReducer
                      (Fixtures.withFailingBatcher
                         (Fixtures.worldOf [Fixtures.outgoing]
                            [Fixtures.bob] []))
                      [Fixtures.read; Fixtures.other] Fixtures.read)))
    as Hfailed.
  { vm_compute. repeat first [left; reflexivity | right]. }
  split; [exact Hfailed|].
  exact (proj2 (onReceipt_error_keeps_the_receipt Fixtures.isOutgoing
                  Fixtures.isStory SpecLattice.sendStateReducer
                  (Fixtures.withFailingBatcher
                     (Fixtures.worldOf [Fixtures.outgoing] [Fixtures.bob] []))
                  [Fixtures.read; Fixtures.other] Fixtures.read) Hfailed).
Defined.

Lemma remove_subset {Model : Type} `{BackboneModel Model}
    (models this : list Model) (x : Model) :
  In x (remove models this) -> In x this.
Proof. unfold remove. rewrite filter_In. tauto. Qed.

Lemma onSync_collection (w : World) (this : list ViewOnceOpenSyncModel)
    (sync : ViewOnceOpenSyncModel) :
  fst (onSync w this sync) = this
  \/ fst (onSync w this sync) = remove [sync] this.
Proof.
  unfold onSync. cbv zeta.
  destruct (getMessagesBySentAt w _) as [messages|]; [|left; reflexivity].
  destruct (List.find _ messages) as [found|]; [|left; reflexivity].
  destruct (markViewOnceMessageViewed w _); [right|left]; reflexivity.
Qed.

Lemma onResponse_collection (w : World) (this : list MessageRequestModel)
    (sync : MessageRequestModel) :
  fst (onResponse w this sync) = this
  \/ fst (onResponse w this sync) = remove [sync] this.
Proof.
  unfold onResponse.
  destruct (resolved _); [right|left]; reflexivity.
Qed.

(** X7. The three entry points take nothing out of their buffer but the
    event they were given, and put nothing in: every model of the buffer
    with another [cid] is still there afterwards, whatever the storage and
    the collaborators do, and every model that is there afterwards was
    there before. *)
Theorem entry_points_remove_at_most_their_event
    (isOutgoing isStory : MessageAttributesType -> bool)
    (sendStateReducer : Reducer) (w : World) :
  (forall (this : list MessageReceiptModel) (receipt x : MessageReceiptModel),
     let after :=
       collection (onReceipt isOutgoing isStory sendStateReducer w
                     this receipt) in
     (In x after -> In x this)
     /\ (In x this -> cid x <> cid receipt -> In x after))
  /\ (forall (this : list ViewOnceOpenSyncModel)
             (sync x : ViewOnceOpenSyncModel),
        let after := fst (onSync w this sync) in
        (In x after -> In x this)
        /\ (In x this -> ViewOnceOpenSync.cid x <> ViewOnceOpenSync.cid sync ->
            In x after))
  /\ (forall (this : list MessageRequestModel) (sync x : MessageRequestModel),
        let after := fst (onResponse w this sync) in
        (In x after -> In x this)
        /\ (In x this -> MessageRequest.cid x <> MessageRequest.cid sync ->
            In x after)).
Proof.
  split; [|split].
  - intros this receipt x. cbv zeta.
    destruct (onReceipt_collection isOutgoing isStory sendStateReducer w
                this receipt) as [-> | ->].
    + tauto.
    + split; [apply remove_subset|].
      intros Hin Hcid. apply remove_others; assumption.
  - intros this sync x. cbv zeta.
    destruct (onSync_collection w this sync) as [-> | ->].
    + tauto.
    + split; [apply remove_subset|].
      intros Hin Hcid. apply remove_others; assumption.
  - intros this sync x. cbv zeta.
    destruct (onResponse_collection w this sync) as [-> | ->].
    + tauto.
    + split; [apply remove_subset|].
      intros Hin Hcid. apply remove_others; assumption.
Qed.

Lemma entry_points_remove_at_most_their_event_witness :
  let w := Fixtures.worldOf [Fixtures.outgoing] [Fixtures.bob] [] in
  In Fixtures.other
     (collection (onReceipt Fixtures.isOutgoing Fixtures.isStory
                    SpecLattice.sendStateReducer w
                    [Fixtures.delivery; Fixtures.other] Fixtures.delivery))
  /\ In Fixtures.openedElsewhere
        (fst (onSync w [Fixtures.opened; Fixtures.openedElsewhere]
                Fixtures.opened))
  /\ In Fixtures.responseByAci
        (fst (onResponse w [Fixtures.responseByE164; Fixtures.responseByAci]
                Fixtures.responseByE164)).
Proof.
  cbv zeta.
  destruct (entry_points_remove_at_most_their_event
              Fixtures.isOutgoing Fixtures.isStory
              SpecLattice.sendStateReducer
              (Fixtures.worldOf [Fixtures.outgoing] [Fixtures.bob] []))
    as (Hreceipts & Hsyncs & Hresponses).
  split; [|split].
  - apply (proj2 (Hreceipts [Fixtures.delivery; Fixtures.other]
                            Fixtures.delivery Fixtures.other)).
    + right. left. reflexivity.
    + vm_compute. discriminate.
  - apply (proj2 (Hsyncs [Fixtures.opened; Fixtures.openedElsewhere]
                         Fixtures.opened Fixtures.openedElsewhere)).
    + right. left. reflexivity.
    + vm_compute. discriminate.
  - apply (proj2 (Hresponses [Fixtures.responseByE164; Fixtures.responseByAci]
                             Fixtures.responseByE164 Fixtures.responseByAci)).
    + right. left. reflexivity.
    + vm_compute. discriminate.
Defined.

(** X8. A receipt that arrives before its message is found later.  When
    [onReceipt] finds no target and no story copy, the buffer stays as it
    is; when the message, outgoing or a story and sent by our account with
    that timestamp, then asks with [forMessage], the receipt is taken out
    of the buffer, and it is returned exactly when the policy of that moment
    does not drop it. *)
Theorem early_receipt_is_found_by_forMessage
    (isOutgoing isStory : MessageAttributesType -> bool)
    (getSourceServiceId : MessageAttributesType -> option string)
    (getMessageSentTimestamp : MessageAttributesType -> Z)
    (sendStateReducer : Reducer) (arrival later : World)
    (this : list MessageReceiptModel) (receipt : MessageReceiptModel)
    (messages : list MessageAttributesType) (message : MessageModel) :
  List.NoDup (List.map cid this) ->
  In receipt this ->
  getMessagesBySentAt arrival (get messageSentAt receipt) = Ok messages ->
  getTargetMessage isOutgoing isStory arrival
    (get sourceConversationId receipt) (get sourceServiceId receipt) messages
  = Ok None ->
  List.filter (isStoryCopy (get sourceConversationId receipt)) messages = [] ->
  isOutgoing message = true \/ isStory message = true ->
  getSourceServiceId message = Some (getCheckedAci later) ->
  getMessageSentTimestamp message = get messageSentAt receipt ->
  let buffered :=
    collection (onReceipt isOutgoing isStory sendStateReducer arrival
                  this receipt) in
  let found :=
    forMessage isOutgoing isStory getSourceServiceId getMessageSentTimestamp
      later buffered message in
  buffered = this
  /\ (In receipt (fst found)
      <-> shouldDropReceipt isStory later receipt message = false)
  /\ ~ In receipt (snd found).
Proof.
  intros Hnodup Hin Hmessages Hmatch Hcopies Hkind Hsource Hsent. cbv zeta.
  rewrite (onReceipt_stories _ _ _ _ _ _ _ Hmessages Hmatch). cbv zeta.
  rewrite Hcopies. cbn [collection].
  rewrite (forMessage_ours _ _ _ _ _ _ _ Hnodup Hkind Hsource). cbv zeta.
  cbn [fst snd]. split; [reflexivity|]. split.
  - rewrite !filter_In, negb_true_iff, Hsent, Z.eqb_refl. tauto.
  - rewrite filter_In, Hsent, Z.eqb_refl. cbn [negb]. intros [_ Hno].
    discriminate.
Qed.

Lemma early_receipt_is_found_by_forMessage_witness :
  let arrival := Fixtures.worldOf [] [Fixtures.bob] [] in
  let later := Fixtures.worldOf [Fixtures.outgoing] [Fixtures.bob] [] in
  let buffered :=
    collection (onReceipt Fixtures.isOutgoing Fixtures.isStory
                  SpecLattice.sendStateReducer arrival
                  [Fixtures.delivery; Fixtures.other] Fixtures.delivery) in
  let found :=
    forMessage Fixtures.isOutgoing Fixtures.isStory
      Fixtures.getSourceServiceId Fixtures.getMessageSentTimestamp
      later buffered Fixtures.outgoing in
  buffered = [Fixtures.delivery; Fixtures.other]
  /\ In Fixtures.delivery (fst found)
  /\ ~ In Fixtures.delivery (snd found).
Proof.
  cbv zeta.
  assert (List.NoDup (List.map cid [Fixtures.delivery; Fixtures.other]))
    as Hnodup.
  { repeat constructor; cbn; intuition discriminate. }
  destruct (early_receipt_is_found_by_forMessage
              Fixtures.isOutgoing Fixtures.isStory
              Fixtures.getSourceServiceId Fixtures.getMessageSentTimestamp
              SpecLattice.sendStateReducer
              (Fixtures.worldOf [] [Fixtures.bob] [])
              (Fixtures.worldOf [Fixtures.outgoing] [Fixtures.bob] [])
              [Fixtures.delivery; Fixtures.other] Fixtures.delivery []
              Fixtures.outgoing Hnodup (or_introl eq_refl) eq_refl eq_refl
              eq_refl (or_introl eq_refl) eq_refl eq_refl)
    as (Hkept & Hfound & Hgone).
  split; [exact Hkept|]. split; [apply Hfound; reflexivity | exact Hgone].
Defined.

(** ** What the matchers return *)

Lemma find_found {A : Type} (p : A -> bool) (l : list A) (x : A) :
  List.find p l = Some x ->
  exists pre post, l = pre ++ x :: post
                   /\ p x = true
                   /\ Forall (fun y => p y = false) pre.
Proof.
  induction l as [|y l IH]; cbn; [discriminate|].
  destruct (p y) eqn:Hy.
  - intros [= ->]. exists [], l. auto.
  - intros Hfind. destruct (IH Hfind) as (pre & post & -> & Hx & Hpre).
    exists (y :: pre), post. auto.
Qed.

Lemma find_missing {A : Type} (p : A -> bool) (l : list A) :
  List.find p l = None -> Forall (fun y => p y = false) l.
Proof.
  intros Hfind. apply List.Forall_forall. intros y Hy.
  exact (List.find_none p l Hfind y Hy).
Qed.

Lemma Forall_false_not {A : Type} (p : A -> bool) (P : A -> Prop)
    (l : list A) :
  (forall y, P y -> p y = true) ->
  Forall (fun y => p y = false) l ->
  Forall (fun y => ~ P y) l.
Proof.
  intros Hp. apply List.Forall_impl. intros y Hy HP.
  rewrite (Hp y HP) in Hy. discriminate.
Qed.

(** X9. Whatever [getTargetMessage] returns is the registered model of one
    of the candidates, outgoing or a story, in the source conversation or
    in a group that the storage lists for the source identity.  The matcher
    rejects exactly when there are candidates, none of them is a direct
    target, and the storage cannot list the groups. *)
Theorem getTargetMessage_returns_eligible_candidates
    (isOutgoing isStory : MessageAttributesType -> bool) (w : World)
    (sourceId serviceId : string) (messages : list MessageAttributesType) :
  let found := getTargetMessage isOutgoing isStory w sourceId serviceId
                 messages in
  (forall target : MessageModel,
     found = Ok (Some target) ->
     exists item : MessageAttributesType,
       In item messages
       /\ target = register w item
       /\ (isOutgoing item = true \/ isStory item = true)
       /\ (Message.conversationId item = sourceId
           \/ exists groups group,
                getAllGroupsInvolvingServiceId w serviceId = Ok groups
                /\ In group groups
                /\ Conversation.id group = Message.conversationId item))
  /\ (forall e : string,
        found = Threw e
        <-> messages <> []
            /\ Forall (fun item =>
                         ~ directTarget isOutgoing isStory sourceId item)
                      messages
            /\ getAllGroupsInvolvingServiceId w serviceId = Threw e).
Proof.
  cbv zeta. unfold getTargetMessage.
  destruct messages as [|m0 messages].
  { cbn [length Nat.eqb]. split; [discriminate|].
    intros e. split; [discriminate | intros [Hne _]; congruence]. }
  cbn [length Nat.eqb]. set (candidates := m0 :: messages).
  destruct (List.find (isDirectTarget isOutgoing isStory sourceId) candidates)
    as [message|] eqn:Hdirect.
  - apply find_found in Hdirect.
    destruct Hdirect as (pre & post & Hsplit & Hm & _).
    apply isDirectTarget_true in Hm. destruct Hm as [Hkind Hconv].
    split.
    + intros target [= <-]. exists message.
      split; [rewrite Hsplit; apply in_elt|]. auto.
    + intros e. split; [discriminate|].
      intros (_ & Hnone & _). exfalso.
      rewrite List.Forall_forall in Hnone.
      apply (Hnone message); [rewrite Hsplit; apply in_elt|].
      split; assumption.
  - apply find_missing in Hdirect.
    assert (Forall (fun item => ~ directTarget isOutgoing isStory sourceId item)
                   candidates) as Hnone.
    { eapply Forall_false_not; [|exact Hdirect].
      intros y. apply isDirectTarget_true. }
    destruct (getAllGroupsInvolvingServiceId w serviceId) as [groups|e0].
    + cbv zeta. split.
      * destruct (List.find _ candidates) as [target0|] eqn:Hgroup;
          [|discriminate].
        intros target [= <-].
        apply find_found in Hgroup.
        destruct Hgroup as (pre & post & Hsplit & Hm & _).
        apply isGroupTarget_true in Hm. destruct Hm as [Hkind Hwhere].
        exists target0. split; [rewrite Hsplit; apply in_elt|].
        split; [reflexivity|]. split; [exact Hkind|].
        destruct Hwhere as [(group & Hin & Hid)|Hconv]; [right|left; auto].
        exists groups, group. auto.
      * intros e. split.
        { destruct (List.find _ candidates); discriminate. }
        { intros (_ & _ & He). discriminate. }
    + split; [discriminate|].
      intros e. split.
      * intros [= ->]. split; [discriminate|]. auto.
      * intros (_ & _ & [= ->]). reflexivity.
Qed.

Lemma getTargetMessage_returns_eligible_candidates_witness :
  getTargetMessage Fixtures.isOutgoing Fixtures.isStory
    (Fixtures.withFailingGroups (Fixtures.worldOf [] [] []))
    Fixtures.recipient "aci-bob" [Fixtures.incoming; Fixtures.inGroup]
  = Threw "getAllGroupsInvolvingServiceId failed"
  /\ exists item,
       In item [Fixtures.incoming; Fixtures.outgoing]
       /\ Fixtures.outgoing = item
       /\ Message.conversationId item = Fixtures.recipient.
Proof.
  split.
  - apply (proj2 (getTargetMessage_returns_eligible_candidates
                    Fixtures.isOutgoing Fixtures.isStory
                    (Fixtures.withFailingGroups (Fixtures.worldOf [] [] []))
                    Fixtures.recipient "aci-bob"
                    [Fixtures.incoming; Fixtures.inGroup])).
    split; [discriminate|]. split; [|reflexivity].
    repeat constructor.
    + intros [[H|H] _]; vm_compute in H; discriminate.
    + intros [_ H]. vm_compute in H. discriminate.
  - destruct (proj1 (getTargetMessage_returns_eligible_candidates
                       Fixtures.isOutgoing Fixtures.isStory
                       (Fixtures.worldOf [] [] [])
                       Fixtures.recipient "aci-bob"
                       [Fixtures.incoming; Fixtures.outgoing])
                    Fixtures.outgoing eq_refl)
      as (item & Hin & Heq & _ & Hwhere).
    exists item. split; [exact Hin|]. split; [exact Heq|].
    destruct Hwhere as [Hconv|(groups & group & Hgroups & Hgroup & _)];
      [exact Hconv|].
    exfalso. vm_compute in Hgroups.
    assert (groups = []) as -> by congruence. destruct Hgroup.
Defined.

(** ** View-once-open syncs *)

Lemma matchesBySourceAci_true (message : MessageModel)
    (item : ViewOnceOpenSyncModel) :
  ViewOnceOpenSyncs.matchesBySourceAci message item = true
  <-> Some (ViewOnceOpenSync.sourceAci item) = Message.sourceServiceId message
      /\ ViewOnceOpenSync.timestamp item = Message.sent_at message.
Proof.
  unfold ViewOnceOpenSyncs.matchesBySourceAci.
  rewrite andb_true_iff, opt_str_eqb_true, Z.eqb_eq. tauto.
Qed.

Lemma matchesBySource_true (message : MessageModel)
    (item : ViewOnceOpenSyncModel) :
  ViewOnceOpenSyncs.matchesBySource message item = true
  <-> ViewOnceOpenSync.source item = Message.source message
      /\ ViewOnceOpenSync.timestamp item = Message.sent_at message.
Proof.
  unfold ViewOnceOpenSyncs.matchesBySource.
  rewrite andb_true_iff, opt_str_eqb_true, Z.eqb_eq. tauto.
Qed.

(** X10. [ViewOnceOpenSyncs.forMessage] returns at most one sync: one of
    the buffer, with the sent timestamp of the message and with its account
    or its source, and the buffer loses exactly that sync.  When it returns
    nothing the buffer is untouched, and no sync of the buffer has the
    timestamp of the message together with its account or its source. *)
Theorem viewOnce_forMessage_takes_one_matching_sync
    (this : list ViewOnceOpenSyncModel) (message : MessageModel) :
  let found := fst (ViewOnceOpenSyncs.forMessage this message) in
  let rest := snd (ViewOnceOpenSyncs.forMessage this message) in
  (forall sync : ViewOnceOpenSyncModel,
     found = Some sync ->
     In sync this
     /\ ViewOnceOpenSync.timestamp sync = Message.sent_at message
     /\ (Some (ViewOnceOpenSync.sourceAci sync)
         = Message.sourceServiceId message
         \/ ViewOnceOpenSync.source sync = Message.source message)
     /\ rest = remove [sync] this
     /\ ~ In sync rest)
  /\ (found = None ->
      rest = this
      /\ forall sync : ViewOnceOpenSyncModel,
           In sync this ->
           ViewOnceOpenSync.timestamp sync = Message.sent_at message ->
           Some (ViewOnceOpenSync.sourceAci sync)
           <> Message.sourceServiceId message
           /\ ViewOnceOpenSync.source sync <> Message.source message).
Proof.
  cbv zeta. unfold ViewOnceOpenSyncs.forMessage.
  destruct (List.find (ViewOnceOpenSyncs.matchesBySourceAci message) this)
    as [byAci|] eqn:Haci.
  - cbn [fst snd]. split; [|discriminate].
    intros sync [= <-]. apply List.find_some in Haci.
    destruct Haci as [Hin Hm]. apply matchesBySourceAci_true in Hm.
    split; [exact Hin|]. split; [tauto|]. split; [tauto|].
    split; [reflexivity | apply remove_self].
  - destruct (List.find (ViewOnceOpenSyncs.matchesBySource message) this)
      as [bySource|] eqn:Hsource; cbn [fst snd].
    + split; [|discriminate].
      intros sync [= <-]. apply List.find_some in Hsource.
      destruct Hsource as [Hin Hm]. apply matchesBySource_true in Hm.
      split; [exact Hin|]. split; [tauto|]. split; [tauto|].
      split; [reflexivity | apply remove_self].
    + split; [discriminate|].
      intros _. split; [reflexivity|].
      intros sync Hin Hts.
      pose proof (List.find_none _ _ Haci sync Hin) as Hno1.
      pose proof (List.find_none _ _ Hsource sync Hin) as Hno2.
      split.
      * intros Heq.
        rewrite (proj2 (matchesBySourceAci_true message sync)) in Hno1;
          [discriminate | auto].
      * intros Heq.
        rewrite (proj2 (matchesBySource_true message sync)) in Hno2;
          [discriminate | auto].
Qed.

Lemma viewOnce_forMessage_takes_one_matching_sync_witness :
  fst (ViewOnceOpenSyncs.forMessage
         [Fixtures.openedElsewhere; Fixtures.opened] Fixtures.incoming)
  = Some Fixtures.opened
  /\ snd (ViewOnceOpenSyncs.forMessage
            [Fixtures.openedElsewhere; Fixtures.opened] Fixtures.incoming)
     = [Fixtures.openedElsewhere]
  /\ ~ In Fixtures.opened
        (snd (ViewOnceOpenSyncs.forMessage
                [Fixtures.openedElsewhere; Fixtures.opened]
                Fixtures.incoming)).
Proof.
  destruct (proj1 (viewOnce_forMessage_takes_one_matching_sync
                     [Fixtures.openedElsewhere; Fixtures.opened]
                     Fixtures.incoming) Fixtures.opened eq_refl)
    as (_ & _ & _ & Hrest & Hgone).
  split; [reflexivity|]. split; [rewrite Hrest; reflexivity | exact Hgone].
Defined.

(** X11. [ViewOnceOpenSyncs.forMessage] looks for the account first: the
    first sync of the buffer with the account and the sent timestamp of the
    message is returned, also when a sync before it has the source and the
    timestamp of the message; a sync is found by its source only when no
    sync of the buffer is found by the account. *)
Theorem viewOnce_forMessage_prefers_the_account
    (this : list ViewOnceOpenSyncModel) (message : MessageModel) :
  let byAccount item :=
    Some (ViewOnceOpenSync.sourceAci item) = Message.sourceServiceId message
    /\ ViewOnceOpenSync.timestamp item = Message.sent_at message in
  let bySource item :=
    ViewOnceOpenSync.source item = Message.source message
    /\ ViewOnceOpenSync.timestamp item = Message.sent_at message in
  (forall (pre post : list ViewOnceOpenSyncModel)
          (sync : ViewOnceOpenSyncModel),
     this = pre ++ sync :: post ->
     Forall (fun item => ~ byAccount item) pre ->
     byAccount sync ->
     fst (ViewOnceOpenSyncs.forMessage this message) = Some sync)
  /\ (forall (pre post : list ViewOnceOpenSyncModel)
             (sync : ViewOnceOpenSyncModel),
        Forall (fun item => ~ byAccount item) this ->
        this = pre ++ sync :: post ->
        Forall (fun item => ~ bySource item) pre ->
        bySource sync ->
        fst (ViewOnceOpenSyncs.forMessage this message) = Some sync).
Proof.
  cbv zeta. unfold ViewOnceOpenSyncs.forMessage. split.
  - intros pre post sync -> Hpre Hsync.
    rewrite (find_first _ pre post sync); [reflexivity| |].
    + eapply Forall_not_true; [|exact Hpre].
      intros y. apply matchesBySourceAci_true.
    + apply matchesBySourceAci_true. exact Hsync.
  - intros pre post sync Hnone -> Hpre Hsync.
    rewrite find_nowhere.
    + rewrite (find_first _ pre post sync); [reflexivity| |].
      * eapply Forall_not_true; [|exact Hpre].
        intros y. apply matchesBySource_true.
      * apply matchesBySource_true. exact Hsync.
    + eapply Forall_not_true; [|exact Hnone].
      intros y. apply matchesBySourceAci_true.
Qed.

Lemma viewOnce_forMessage_prefers_the_account_witness :
  fst (ViewOnceOpenSyncs.forMessage
         [Fixtures.openedBySource; Fixtures.opened] Fixtures.incoming)
  = Some Fixtures.opened
  /\ fst (ViewOnceOpenSyncs.forMessage
            [Fixtures.openedElsewhere; Fixtures.openedBySource]
            Fixtures.incoming)
     = Some Fixtures.openedBySource.
Proof.
  destruct (viewOnce_forMessage_prefers_the_account
              [Fixtures.openedBySource; Fixtures.opened] Fixtures.incoming)
    as [Haccount _].
  destruct (viewOnce_forMessage_prefers_the_account
              [Fixtures.openedElsewhere; Fixtures.openedBySource]
              Fixtures.incoming) as [_ Hsource].
  split.
  - apply (Haccount [Fixtures.openedBySource] [] Fixtures.opened).
    + reflexivity.
    + repeat constructor. intros [H _]. vm_compute in H. discriminate.
    + split; reflexivity.
  - apply (Hsource [Fixtures.openedElsewhere] [] Fixtures.openedBySource).
    + repeat constructor; intros [H _]; vm_compute in H; discriminate.
    + reflexivity.
    + repeat constructor. intros [H _]. vm_compute in H. discriminate.
    + split; reflexivity.
Defined.



Lemma isSyncTarget_true (sync : ViewOnceOpenSyncModel)
    (item : MessageAttributesType) :
  isSyncTarget sync item = true ->
  (Message.sourceServiceId item = Some (ViewOnceOpenSync.sourceAci sync)
   /\ ViewOnceOpenSync.sourceAci sync <> EmptyString)
  \/ (exists source : string,
        ViewOnceOpenSync.source sync = Some source
        /\ source <> EmptyString
        /\ Message.source item = Some source).
Proof.
  unfold isSyncTarget. cbv zeta.
  rewrite orb_true_iff, !andb_true_iff, !opt_str_eqb_true.
  intros [[[_ Hsync] Heq]|[[Hitem Hsync] Heq]].
  - left. split; [exact Heq|]. apply truthy_string_true. exact Hsync.
  - right. destruct (ViewOnceOpenSync.source sync) as [source|];
      [|discriminate].
    exists source. split; [reflexivity|].
    split; [apply truthy_string_true; exact Hsync | exact Heq].
Qed.

(** X13. [onSync] marks at most one message as viewed, and only a message
    that the storage lists for the timestamp of the sync and that comes from
    the account of the sync or from its source, present and not empty on
    both sides.  When it logs an error the sync is still in the buffer. *)
Theorem onSync_marks_one_message_of_the_source
    (w : World) (this : list ViewOnceOpenSyncModel)
    (sync : ViewOnceOpenSyncModel) :
  let issued := snd (onSync w this sync) in
  (forall messageId : string,
     In (MarkViewOnceMessageViewed messageId) issued ->
     exists (messages : list MessageAttributesType)
            (found : MessageAttributesType),
       getMessagesBySentAt w (ViewOnceOpenSync.timestamp sync) = Ok messages
       /\ In found messages
       /\ messageId = Message.id (register w found)
       /\ ((Message.sourceServiceId found
            = Some (ViewOnceOpenSync.sourceAci sync)
            /\ ViewOnceOpenSync.sourceAci sync <> EmptyString)
           \/ (exists source : string,
                 ViewOnceOpenSync.source sync = Some source
                 /\ source <> EmptyString
                 /\ Message.source found = Some source)))
  /\ (forall a b : string,
        In (MarkViewOnceMessageViewed a) issued ->
        In (MarkViewOnceMessageViewed b) issued -> a = b)
  /\ (In (Log Error "ViewOnceOpenSyncs.onSync error:") issued ->
      fst (onSync w this sync) = this).
Proof.
  cbv zeta. unfold onSync, register. cbv zeta.
  destruct (getMessagesBySentAt w _) as [messages|e] eqn:Hmessages;
    cbn [fst snd].
  2:{ split; [|split; [|reflexivity]].
      - intros messageId [Hin|[]]. discriminate.
      - intros a b [Hin|[]]. discriminate. }
  destruct (List.find (isSyncTarget sync) messages) as [found|] eqn:Hfound;
    cbn [fst snd].
  2:{ split; [|split].
      - intros messageId [Hin|[]]. discriminate.
      - intros a b [Hin|[]]. discriminate.
      - intros [Hin|[]]. discriminate. }
  apply List.find_some in Hfound. destruct Hfound as [Hin Hmatch].
  apply isSyncTarget_true in Hmatch.
  assert (forall messageId tail,
            (forall x, In x tail -> x = Log Error "ViewOnceOpenSyncs.onSync error:") ->
            In (MarkViewOnceMessageViewed messageId)
               ([Log Info "Receive view once open sync:";
                 MarkViewOnceMessageViewed
                   (Message.id
                      (MessageController_register w (Message.id found) found))]
                  ++ tail) ->
            messageId
            = Message.id
                (MessageController_register w (Message.id found) found))
    as Hone.
  { intros messageId tail Htail [Heq|[Heq|Hrest]].
    - discriminate.
    - congruence.
    - apply Htail in Hrest. discriminate. }
  destruct (markViewOnceMessageViewed w _) as [u|e]; cbn [fst snd].
  - split; [|split].
    + intros messageId Hmark. exists messages, found.
      split; [reflexivity|]. split; [exact Hin|]. split; [|exact Hmatch].
      apply (Hone messageId []); [intros x []|exact Hmark].
    + intros a b Ha Hb.
      rewrite (Hone a [] ltac:(intros x []) Ha).
      rewrite (Hone b [] ltac:(intros x []) Hb). reflexivity.
    + intros [Hlog|[Hlog|[]]]; discriminate.
  - split; [|split; [|reflexivity]].
    + intros messageId Hmark. exists messages, found.
      split; [reflexivity|]. split; [exact Hin|]. split; [|exact Hmatch].
      apply (Hone messageId [Log Error "ViewOnceOpenSyncs.onSync error:"]);
        [intros x [<-|[]]; reflexivity | exact Hmark].
    + intros a b Ha Hb.
      rewrite (Hone a [Log Error "ViewOnceOpenSyncs.onSync error:"]
                 ltac:(intros x [<-|[]]; reflexivity) Ha).
      rewrite (Hone b [Log Error "ViewOnceOpenSyncs.onSync error:"]
                 ltac:(intros x [<-|[]]; reflexivity) Hb).
      reflexivity.
Qed.

Lemma onSync_marks_one_message_of_the_source_witness :
  let w := Fixtures.worldOf [Fixtures.outgoing; Fixtures.incoming] [] [] in
  In (MarkViewOnceMessageViewed "incoming-1")
     (snd (onSync w [Fixtures.opened] Fixtures.opened))
  /\ forall messageId,
       In (MarkViewOnceMessageViewed messageId)
          (snd (onSync w [Fixtures.opened] Fixtures.opened)) ->
       messageId = "incoming-1".
Proof.
  cbv zeta.
  assert (In (MarkViewOnceMessageViewed "incoming-1")
             (snd (onSync
                     (Fixtures.worldOf [Fixtures.outgoing; Fixtures.incoming]
                        [] [])
                     [Fixtures.opened] Fixtures.opened))) as Hmarked.
  { vm_compute. right. left. reflexivity. }
  split; [exact Hmarked|].
  intros messageId Hin.
  exact (proj1 (proj2 (onSync_marks_one_message_of_the_source
                         (Fixtures.worldOf
                            [Fixtures.outgoing; Fixtures.incoming] [] [])
                         [Fixtures.opened] Fixtures.opened))
               messageId "incoming-1" Hin Hmarked).
Defined.

(** ** Message request responses: what [forConversation] returns *)

Lemma findWhere_found (name : MessageRequestModel -> option string)
    (value : option string) (this : list MessageRequestModel)
    (sync : MessageRequestModel) :
  (if truthy value then findWhere name value this else None) = Some sync ->
  truthy value = true /\ In sync this /\ name sync = value.
Proof.
  destruct (truthy value); [|discriminate].
  unfold findWhere. intros Hfind. apply List.find_some in Hfind.
  destruct Hfind as [Hin Hm]. apply opt_str_eqb_true in Hm. auto.
Qed.

(** X14. The response that [forConversation] returns is one of the buffer
    whose phone number, service identity or group id is that key of the
    conversation, a key that the conversation has (not undefined, not
    empty), and the buffer loses exactly this response; when it returns
    nothing the buffer is untouched.  A conversation without any of the
    three keys gets no response. *)
Theorem forConversation_returns_a_buffered_match
    (this : list MessageRequestModel) (conversation : ConversationModel) :
  let found := fst (forConversation this conversation) in
  let rest := snd (forConversation this conversation) in
  (forall sync : MessageRequestModel,
     found = Some sync ->
     In sync this
     /\ rest = remove [sync] this
     /\ ~ In sync rest
     /\ ((truthy (Conversation.e164 conversation) = true
          /\ MessageRequest.threadE164 sync = Conversation.e164 conversation)
         \/ (truthy (Conversation.serviceId conversation) = true
             /\ MessageRequest.threadAci sync
                = Conversation.serviceId conversation)
         \/ (truthy (Conversation.groupId conversation) = true
             /\ MessageRequest.groupV2Id sync
                = Conversation.groupId conversation)))
  /\ (found = None -> rest = this)
  /\ (truthy (Conversation.e164 conversation) = false ->
      truthy (Conversation.serviceId conversation) = false ->
      truthy (Conversation.groupId conversation) = false ->
      found = None).
Proof.
  cbv zeta. unfold forConversation, syncByE164, syncByAci, syncByGroupId.
  destruct (if truthy (Conversation.e164 conversation) then _ else None)
    as [byE164|] eqn:He.
  { apply findWhere_found in He. destruct He as (Hkey & Hin & Hname).
    cbn [fst snd]. split; [|split; [discriminate|]].
    - intros sync [= <-]. split; [exact Hin|]. split; [reflexivity|].
      split; [apply remove_self|]. left. auto.
    - intros Hno. congruence. }
  destruct (if truthy (Conversation.serviceId conversation) then _ else None)
    as [byAci|] eqn:Ha.
  { apply findWhere_found in Ha. destruct Ha as (Hkey & Hin & Hname).
    cbn [fst snd]. split; [|split; [discriminate|]].
    - intros sync [= <-]. split; [exact Hin|]. split; [reflexivity|].
      split; [apply remove_self|]. right. left. auto.
    - intros _ Hno. congruence. }
  destruct (if truthy (Conversation.groupId conversation) then _ else None)
    as [byGroup|] eqn:Hg.
  { apply findWhere_found in Hg. destruct Hg as (Hkey & Hin & Hname).
    cbn [fst snd]. split; [|split; [discriminate|]].
    - intros sync [= <-]. split; [exact Hin|]. split; [reflexivity|].
      split; [apply remove_self|]. right. right. auto.
    - intros _ _ Hno. congruence. }
  cbn [fst snd]. split; [discriminate|]. split; reflexivity.
Qed.

Lemma forConversation_returns_a_buffered_match_witness :
  let keyless := Conversation.mk "conversation-x" None None None true in
  fst (forConversation [Fixtures.responseByGroup; Fixtures.responseByAci]
         keyless) = None
  /\ ~ In Fixtures.responseByAci
        (snd (forConversation
                [Fixtures.responseByGroup; Fixtures.responseByAci]
                Fixtures.bob)).
Proof.
  cbv zeta.
  destruct (forConversation_returns_a_buffered_match
              [Fixtures.responseByGroup; Fixtures.responseByAci]
              (Conversation.mk "conversation-x" None None None true))
    as (_ & _ & Hkeyless).
  destruct (forConversation_returns_a_buffered_match
              [Fixtures.responseByGroup; Fixtures.responseByAci]
              Fixtures.bob) as (Hfound & _ & _).
  split; [apply Hkeyless; reflexivity|].
  destruct (Hfound Fixtures.responseByAci eq_refl) as (_ & _ & Hgone & _).
  exact Hgone.
Defined.

(** ** The batch of [deleteSentProtoBatcher] *)



(** ** [MessageReceipts.forMessage] on other messages *)

(** X16. [forMessage] serves our own outgoing messages and stories only:
    for a message that is neither outgoing nor a story, and for one whose
    source is not our account, it returns no receipt and leaves every
    receipt in the buffer, also those with the timestamp of the message. *)
Theorem forMessage_is_for_our_own_messages
    (isOutgoing isStory : MessageAttributesType -> bool)
    (getSourceServiceId : MessageAttributesType -> option string)
    (getMessageSentTimestamp : MessageAttributesType -> Z) (w : World)
    (this : list MessageReceiptModel) (message : MessageModel) :
  (isOutgoing message = false /\ isStory message = false)
  \/ getSourceServiceId message <> Some (getCheckedAci w) ->
  forMessage isOutgoing isStory getSourceServiceId getMessageSentTimestamp
    w this message
  = ([], this).
Proof.
  intros Hguard. unfold forMessage.
  destruct (isOutgoing message) eqn:Hout, (isStory message) eqn:Hstory;
    cbn [negb andb]; try reflexivity;
    (destruct Hguard as [[Hno1 Hno2]|Hsource]; [discriminate|]);
    cbv zeta; unfold opt_str_eqb;
    rewrite bool_decide_eq_false_2 by congruence; reflexivity.
Qed.

Lemma forMessage_is_for_our_own_messages_witness :
  forMessage Fixtures.isOutgoing Fixtures.isStory
    Fixtures.getSourceServiceId Fixtures.getMessageSentTimestamp
    (Fixtures.worldOf [Fixtures.incoming] [Fixtures.bob] [])
    [Fixtures.delivery; Fixtures.read] Fixtures.incoming
  = ([], [Fixtures.delivery; Fixtures.read]).
Proof.
  apply (forMessage_is_for_our_own_messages
           Fixtures.isOutgoing Fixtures.isStory
           Fixtures.getSourceServiceId Fixtures.getMessageSentTimestamp
           (Fixtures.worldOf [Fixtures.incoming] [Fixtures.bob] [])
           [Fixtures.delivery; Fixtures.read] Fixtures.incoming).
  right. vm_compute. discriminate.
Defined.
